(** * Wildlive annotation worker: the job pipeline of [main.py]

    A shallow embedding of the annotation worker:
    [build_wlmo_fragment_selector], [run_wildlive_detection],
    [map_result_to_wlmo_annotation] and [process_annotation_job], with
    the Python values they handle (JSON data), the exceptions they can
    raise, and the effects they have (the clock, the remote detection
    call and the emitted log records).

    Conventions of the model.
    - A Python value that came out of [json.loads] is a [json]. A [str]
      is a Rocq [string] whose characters are code points below 256.
      A [dict] is an association list; the first binding of a key is
      the live one, later bindings of the same key are shadowed.
    - A Python [float] is a [spec_float] (sign, mantissa, exponent, the
      infinities and NaN); the model only ever truncates one to an
      integer or passes it through.
    - Integers are unbounded; the optional limit of newer interpreters
      on the number of digits of an integer conversion is not modelled. *)

From Stdlib Require Import ZArith List String Ascii Bool Lia.
From Stdlib Require Import DecimalString DecimalPos.
From Stdlib Require Import Floats.SpecFloat.
Import ListNotations.

Set Warnings "-register-all".
Local Open Scope string_scope.
Local Open Scope Z_scope.

(** ** Python values *)

Inductive json : Type :=
| JNull
| JBool (b : bool)
| JInt (z : Z)
| JFloat (f : spec_float)
| JStr (s : string)
| JList (l : list json)
| JDict (d : list (string * json)).

Definition dict := list (string * json).

(** [type(v).__name__], as it appears in the messages of the interpreter. *)
Definition type_name (v : json) : string :=
  match v with
  | JNull => "NoneType"
  | JBool _ => "bool"
  | JInt _ => "int"
  | JFloat _ => "float"
  | JStr _ => "str"
  | JList _ => "list"
  | JDict _ => "dict"
  end.

(** ** Exceptions *)

(** The exceptions the worker can meet.  [RequestError] stands for
    whatever [requests.post], [raise_for_status] or [response.json]
    raise; its argument is [str(e)] of that exception. *)
Inductive exn : Type :=
| KeyError (key : string)
| AttributeError (msg : string)
| TypeError (msg : string)
| ValueError (msg : string)
| OverflowError (msg : string)
| RequestError (msg : string).

Inductive result (A : Type) : Type :=
| Ok (a : A)
| Raise (e : exn).
Arguments Ok {A} a.
Arguments Raise {A} e.

Definition rbind {A B} (c : result A) (k : A -> result B) : result B :=
  match c with
  | Ok a => k a
  | Raise e => Raise e
  end.

Declare Scope result_scope.
Delimit Scope result_scope with result.
Notation "x <- c ;; k" := (rbind c (fun x => k))
  (at level 61, c at next level, right associativity) : result_scope.

(** ** [repr] and [str] *)

Definition hex_digit (n : nat) : ascii :=
  nth n (list_ascii_of_string "0123456789abcdef") "0"%char.

(** Code points below 256 that [repr] prints as they are. *)
Definition printable (c : ascii) : bool :=
  let n := nat_of_ascii c in
  ((32 <=? n) && (n <=? 126) || (161 <=? n) && negb (n =? 173))%nat.

Definition repr_char (quote : ascii) (c : ascii) : string :=
  if (Ascii.eqb c quote || Ascii.eqb c "\"%char)%bool then String "\"%char (String c "")
  else if Ascii.eqb c "009"%char then "\t"
  else if Ascii.eqb c "010"%char then "\n"
  else if Ascii.eqb c "013"%char then "\r"
  else if printable c then String c ""
  else let n := nat_of_ascii c in
       String "\"%char (String "x"%char
         (String (hex_digit (n / 16)) (String (hex_digit (n mod 16)) ""))).

Fixpoint contains (c : ascii) (s : string) : bool :=
  match s with
  | EmptyString => false
  | String c' s' => (Ascii.eqb c c' || contains c s')%bool
  end.

Fixpoint concat_map_chars (f : ascii -> string) (s : string) : string :=
  match s with
  | EmptyString => ""
  | String c s' => f c ++ concat_map_chars f s'
  end.

(** [repr(s)] of a [str]: single quotes, unless the text has a single
    quote and no double quote. *)
Definition py_repr (s : string) : string :=
  let quote := if (contains "'"%char s && negb (contains "034"%char s))%bool
               then "034"%char else "'"%char in
  String quote (concat_map_chars (repr_char quote) s ++ String quote "").

(** [str(n)] of an [int], which is also what an f-string field prints. *)
Definition str_of_int (z : Z) : string :=
  NilZero.string_of_int (Z.to_int z).

(** [str(e)]. *)
Definition str_exn (e : exn) : string :=
  match e with
  | KeyError k => py_repr k
  | AttributeError m | TypeError m | ValueError m | OverflowError m
  | RequestError m => m
  end.

(** ** Dictionaries *)

Fixpoint lookup (k : string) (d : dict) : option json :=
  match d with
  | [] => None
  | (k', v) :: d' => if String.eqb k k' then Some v else lookup k d'
  end.

(** The keys of a dictionary in insertion order, shadowed bindings left out. *)
Fixpoint dict_keys (seen : list string) (d : dict) : list string :=
  match d with
  | [] => []
  | (k, _) :: d' =>
      if existsb (String.eqb k) seen then dict_keys seen d'
      else k :: dict_keys (k :: seen) d'
  end.

(** [v.get(k, default)]: only a [dict] has the method. *)
Definition py_get (v : json) (k : string) (default : json) : result json :=
  match v with
  | JDict d =>
      match lookup k d with
      | Some x => Ok x
      | None => Ok default
      end
  | _ => Raise (AttributeError
                  ("'" ++ type_name v ++ "' object has no attribute 'get'"))
  end.

(** [v[k]] for a string key [k]. *)
Definition py_getitem (v : json) (k : string) : result json :=
  match v with
  | JDict d =>
      match lookup k d with
      | Some x => Ok x
      | None => Raise (KeyError k)
      end
  | JList _ =>
      Raise (TypeError "list indices must be integers or slices, not str")
  | JStr _ =>
      Raise (TypeError "string indices must be integers, not 'str'")
  | _ => Raise (TypeError ("'" ++ type_name v ++ "' object is not subscriptable"))
  end.

Fixpoint chars (s : string) : list json :=
  match s with
  | EmptyString => []
  | String c s' => JStr (String c "") :: chars s'
  end.

(** What [for x in v] runs over. *)
Definition py_iter (v : json) : result (list json) :=
  match v with
  | JList l => Ok l
  | JStr s => Ok (chars s)
  | JDict d => Ok (map JStr (dict_keys [] d))
  | _ => Raise (TypeError ("'" ++ type_name v ++ "' object is not iterable"))
  end.

(** ** [int(...)] *)

(** The characters [int] skips around a literal. *)
Definition is_space (c : ascii) : bool :=
  let n := nat_of_ascii c in
  ((9 <=? n) && (n <=? 13) || (n =? 32) || (n =? 133) || (n =? 160))%nat.

Fixpoint skip_spaces (s : string) : string :=
  match s with
  | EmptyString => ""
  | String c s' => if is_space c then skip_spaces s' else s
  end.

Definition digit_value (c : ascii) : option Z :=
  let n := nat_of_ascii c in
  if ((48 <=? n) && (n <=? 57))%nat then Some (Z.of_nat (n - 48)) else None.

(** The run of digits, with single underscores allowed between two
    digits; returns the number read and the text left. *)
Fixpoint scan_digits (after_underscore : bool) (acc : Z) (s : string)
  : option (Z * string) :=
  match s with
  | EmptyString => if after_underscore then None else Some (acc, "")
  | String c s' =>
      match digit_value c with
      | Some d => scan_digits false (acc * 10 + d) s'
      | None =>
          if Ascii.eqb c "_"%char then
            if after_underscore then None else scan_digits true acc s'
          else if after_underscore then None else Some (acc, s)
      end
  end.

(** [int(s)] for a [str], base 10: spaces, a sign, the digits, spaces. *)
Definition int_of_string (s : string) : option Z :=
  let s1 := skip_spaces s in
  let '(neg, s2) :=
    match s1 with
    | String "+"%char r => (false, r)
    | String "-"%char r => (true, r)
    | _ => (false, s1)
    end in
  match s2 with
  | EmptyString => None
  | String c _ =>
      match digit_value c with
      | None => None
      | Some _ =>
          match scan_digits false 0 s2 with
          | None => None
          | Some (n, rest) =>
              match skip_spaces rest with
              | EmptyString => Some (if neg then - n else n)
              | _ => None
              end
          end
      end
  end.

(** [int(f)] for a finite [float]: truncation toward zero. *)
Definition trunc_float (s : bool) (m : positive) (e : Z) : Z :=
  let a := if 0 <=? e then Z.pos m * 2 ^ e else Z.shiftr (Z.pos m) (- e) in
  if s then - a else a.

Definition int_type_error (v : json) : exn :=
  TypeError ("int() argument must be a string, a bytes-like object or a real number, not '"
             ++ type_name v ++ "'").

(** [int(v)]. *)
Definition py_int (v : json) : result Z :=
  match v with
  | JBool b => Ok (if b then 1 else 0)
  | JInt z => Ok z
  | JFloat (S754_zero _) => Ok 0
  | JFloat (S754_infinity _) =>
      Raise (OverflowError "cannot convert float infinity to integer")
  | JFloat S754_nan =>
      Raise (ValueError "cannot convert float NaN to integer")
  | JFloat (S754_finite s m e) => Ok (trunc_float s m e)
  | JStr s =>
      match int_of_string s with
      | Some z => Ok z
      | None =>
          Raise (ValueError ("invalid literal for int() with base 10: "
                             ++ substring 0 200 (py_repr s)))
      end
  | JNull | JList _ | JDict _ => Raise (int_type_error v)
  end.

(** ** Identity and fragment selector *)

Definition get_agent : json :=
  JDict [ ("id", JStr "https://example.org/agent/annotation-service");
          ("name", JStr "Annotation Service");
          ("type", JStr "SoftwareAgent") ].

(** The text of the selector: [f"xywh={x},{y},{w},{h}"]. *)
Definition xywh (x y w h : Z) : string :=
  "xywh=" ++ str_of_int x ++ "," ++ str_of_int y ++ ","
          ++ str_of_int w ++ "," ++ str_of_int h.

Definition build_wlmo_fragment_selector (annotation : json) : result json :=
  (box <- py_get annotation "boundingBox" (JDict []) ;;
   xv <- py_get box "x" (JInt 0) ;;
   x <- py_int xv ;;
   yv <- py_get box "y" (JInt 0) ;;
   y <- py_int yv ;;
   wv <- py_get box "width" (JInt 0) ;;
   w <- py_int wv ;;
   hv <- py_get box "height" (JInt 0) ;;
   h <- py_int hv ;;
   Ok (JDict [ ("@type", JStr "wlmo:FragmentSelector");
               ("wlmo:value", JStr (xywh x y w h));
               ("wlmo:conformsTo", JStr "http://www.w3.org/TR/media-frags/") ]))%result.


(** ** Effects *)

(** What a run leaves behind, in the order it happens: the log records
    of the worker and the request sent to the detection service. *)
Inductive event : Type :=
| Processing (job_data : json)
| MarkedRunning (job_id : json)
| HttpPost (payload : json)
| DetectionFailed (e : exn)
| Published (ev : json)
| ErrorLogged (e : exn)
| FailedMessage (job_id : json) (message : string).

(** The surroundings of the worker: [clock n] is what the [n]-th call
    of [datetime.utcnow().isoformat()] returns, and [service n payload]
    is how the [n]-th request to the detection endpoint ends: with the
    parsed body of a 2xx response, or with an exception (no answer, a
    timeout, a non-2xx status, a body that is not JSON). *)
Record World : Type := {
  clock : nat -> string;
  service : nat -> json -> result json
}.

Record State : Type := {
  ticks : nat;
  log : list event
}.

(** Computations that read and write the state and may raise; what an
    exception leaves in the state stays there. *)
Definition M (A : Type) : Type := State -> result A * State.

Definition ret {A} (a : A) : M A := fun s => (Ok a, s).

Definition bind {A B} (c : M A) (k : A -> M B) : M B :=
  fun s =>
    match c s with
    | (Ok a, s') => k a s'
    | (Raise e, s') => (Raise e, s')
    end.

Definition lift {A} (r : result A) : M A := fun s => (r, s).

Definition raise {A} (e : exn) : M A := fun s => (Raise e, s).

(** [try: body except Exception as e: handler e]. *)
Definition try_except {A} (body : M A) (handler : exn -> M A) : M A :=
  fun s =>
    match body s with
    | (Ok a, s') => (Ok a, s')
    | (Raise e, s') => handler e s'
    end.

Definition emit (ev : event) : M unit :=
  fun s => (Ok tt, {| ticks := ticks s; log := log s ++ [ev] |}).

Declare Scope M_scope.
Delimit Scope M_scope with M.
Notation "x <- c ;; k" := (bind c (fun x => k))
  (at level 61, c at next level, right associativity) : M_scope.
Notation "c ;;; k" := (bind c (fun _ => k))
  (at level 61, right associativity) : M_scope.

Definition is_post (ev : event) : bool :=
  match ev with HttpPost _ => true | _ => false end.

(** How many requests a log holds. *)
Definition posts (l : list event) : nat := List.length (filter is_post l).

Section Worker.

Variable w : World.

(** [datetime.utcnow().isoformat() + "Z"]: each call reads the clock anew. *)
Definition timestamp_now : M string :=
  fun s => (Ok (clock w (ticks s) ++ "Z"),
            {| ticks := S (ticks s); log := log s |}).

(** One request to the endpoint, answered by the world. *)
Definition post (payload : json) : M json :=
  fun s => (service w (posts (log s)) payload,
            {| ticks := ticks s; log := log s ++ [HttpPost payload] |}).

Definition run_wildlive_detection (image_uri : json) : M (json * json * json) :=
  let payload := JDict [("image_url", image_uri)] in
  try_except
    (result <- post payload ;;
     lift (output <- py_get result "output" (JList []) ;;
           height <- py_get result "image_height" (JInt (-1)) ;;
           width <- py_get result "image_width" (JInt (-1)) ;;
           Ok (output, height, width))%result)%M
    (fun e => emit (DetectionFailed e) ;;; raise e)%M.

(** The body of the loop of [map_result_to_wlmo_annotation]. *)
Definition annotation_of (digital_object : json) (timestamp : string)
           (agent : json) (det : json) : result json :=
  (selector <- build_wlmo_fragment_selector det ;;
   class <- py_get det "class" JNull ;;
   score <- py_get det "score" JNull ;;
   let body := JDict [ ("@type", JStr "wlmo:TextualBody");
                       ("wlmo:vernacularName", class);
                       ("wlmo:confidenceScore", score) ] in
   id <- py_get digital_object "id" JNull ;;
   Ok (JDict
     [ ("@context", JDict [("wlmo", JStr "https://w3id.org/wlmo#")]);
       ("@type", JStr "wlmo:Annotation");
       ("wlmo:creator", agent);
       ("wlmo:created", JStr timestamp);
       ("wlmo:motivation", JStr "classifying");
       ("wlmo:target",
         JDict [ ("@type", JStr "wlmo:DigitalObject");
                 ("wlmo:id", id);
                 ("wlmo:hasSelector", selector) ]);
       ("wlmo:hasBody", body);
       ("wlmo:generator",
         JDict [ ("@id", JStr "https://wildlive.senckenberg.de/wlmo/current/");
                 ("@type", JStr "wlmo:Software");
                 ("wlmo:name", JStr "WildLive Detection Service") ]) ]))%result.

(** The loop: [annotations] is the list built so far. *)
Fixpoint for_detections (digital_object : json) (timestamp : string)
         (agent : json) (dets : list json) (annotations : list json)
  : result (list json) :=
  match dets with
  | [] => Ok annotations
  | det :: rest =>
      (annotation <- annotation_of digital_object timestamp agent det ;;
       for_detections digital_object timestamp agent rest
                      (annotations ++ [annotation]))%result
  end.

Definition map_result_to_wlmo_annotation
           (digital_object organ_detections image_height image_width : json)
  : M (list json) :=
  (timestamp <- timestamp_now ;;
   let agent := get_agent in
   lift (dets <- py_iter organ_detections ;;
         for_detections digital_object timestamp agent dets [])%result)%M.

Definition mark_job_as_running (job_id : json) : M unit :=
  emit (MarkedRunning job_id).

Definition send_failed_message (job_id : json) (message : string) : M unit :=
  emit (FailedMessage job_id message).

Definition publish_annotation_event (ev : json) : M unit :=
  emit (Published ev).

Definition process_annotation_job (job_data : json) : M unit :=
  try_except
    (emit (Processing job_data) ;;;
     running_id <- lift (py_get job_data "jobId" JNull) ;;
     mark_job_as_running running_id ;;;
     digital_object <- lift (py_getitem job_data "object") ;;
     access_uri <- lift (py_get digital_object "ac:accessURI" JNull) ;;
     detected <- run_wildlive_detection access_uri ;;
     let '(detections, height, width) := detected in
     annotations <- map_result_to_wlmo_annotation
                      digital_object detections height width ;;
     job_id <- lift (py_getitem job_data "jobId") ;;
     let ev := JDict [("annotations", JList annotations); ("jobId", job_id)] in
     publish_annotation_event ev)%M
    (fun e =>
       (emit (ErrorLogged e) ;;;
        job_id <- lift (py_get job_data "jobId" (JStr "unknown")) ;;
        send_failed_message job_id (str_exn e))%M).

End Worker.

(** A fresh worker: the clock not yet read, nothing logged. *)
Definition init : State := {| ticks := 0; log := [] |}.

Local Open Scope list_scope.

(** ** Well-formed detections *)

(** A value [int] accepts. *)
Definition coercible (v : json) : bool :=
  match py_int v with
  | Ok _ => true
  | Raise _ => false
  end.

(** A field of a bounding box is fine when it is missing or coercible. *)
Definition field_ok (box : dict) (k : string) : bool :=
  match lookup k box with
  | None => true
  | Some v => coercible v
  end.

(** A detection the selector builder accepts: a [dict] whose bounding
    box, when there is one, is a [dict] with fine [x], [y], [width] and
    [height]. *)
Definition well_formed_detection (det : json) : bool :=
  match det with
  | JDict d =>
      match lookup "boundingBox" d with
      | None => true
      | Some (JDict box) =>
          field_ok box "x" && field_ok box "y"
          && field_ok box "width" && field_ok box "height"
      | Some _ => false
      end
  | _ => false
  end.

(** The value [box.get(k, 0)] hands to [int]. *)
Definition field (box : dict) (k : string) : json :=
  match lookup k box with
  | Some v => v
  | None => JInt 0
  end.

(** The bounding box [annotation.get("boundingBox", {})] of a detection. *)
Definition box_of (det : dict) : json :=
  match lookup "boundingBox" det with
  | Some b => b
  | None => JDict []
  end.

(** The selector the builder returns for the four integers. *)
Definition selector (x y w h : Z) : json :=
  JDict [ ("@type", JStr "wlmo:FragmentSelector");
          ("wlmo:value", JStr (xywh x y w h));
          ("wlmo:conformsTo", JStr "http://www.w3.org/TR/media-frags/") ].

(** ** The stages of a job, as records of the log *)

(** The body of the request: [{"image_url": image_uri}]. *)
Definition payload_of (image_uri : json) : json :=
  JDict [("image_url", image_uri)].

(** The three reads of [run_wildlive_detection] on the parsed body. *)
Definition read_response (body : json) : result (json * json * json) :=
  (output <- py_get body "output" (JList []) ;;
   height <- py_get body "image_height" (JInt (-1)) ;;
   width <- py_get body "image_width" (JInt (-1)) ;;
   Ok (output, height, width))%result.

(** The failure path of [process_annotation_job]. *)
Definition failure (d : dict) (e : exn) : list event :=
  [ ErrorLogged e;
    FailedMessage (match lookup "jobId" d with
                   | Some j => j
                   | None => JStr "unknown"
                   end) (str_exn e) ].

(** The record of a published event [{"annotations": ..., "jobId": ...}]. *)
Definition success (annotations job_id : json) : event :=
  Published (JDict [("annotations", annotations); ("jobId", job_id)]).

(** The records one job adds to the log, stage by stage. *)
Definition job_events (w : World) (d : dict) (s : State) : list event :=
  [ Processing (JDict d);
    MarkedRunning (match lookup "jobId" d with Some j => j | None => JNull end) ]
  ++
  match py_getitem (JDict d) "object" with
  | Raise e => failure d e
  | Ok o =>
      match py_get o "ac:accessURI" JNull with
      | Raise e => failure d e
      | Ok uri =>
          HttpPost (payload_of uri) ::
          match (r <- service w (posts (log s)) (payload_of uri) ;;
                 read_response r)%result with
          | Raise e => DetectionFailed e :: failure d e
          | Ok (dets, _, _) =>
              match (l <- py_iter dets ;;
                     for_detections o (clock w (ticks s) ++ "Z")%string get_agent l [])%result with
              | Raise e => failure d e
              | Ok anns =>
                  match py_getitem (JDict d) "jobId" with
                  | Raise e => failure d e
                  | Ok j => [success (JList anns) j]
                  end
              end
          end
      end
  end.

(** ** Outcomes *)

(** The two kinds of outcome a job can leave in the log. *)
Definition is_published (ev : event) : bool :=
  match ev with Published _ => true | _ => false end.

Definition is_failed (ev : event) : bool :=
  match ev with FailedMessage _ _ => true | _ => false end.

(** How many of each a log holds. *)
Definition published (l : list event) : nat := List.length (filter is_published l).
Definition failed (l : list event) : nat := List.length (filter is_failed l).

(** An exception whose [str] is not empty. *)
Definition said (e : exn) : Prop := str_exn e <> ""%string.

(** ** Runs compared up to the clock *)

(** [d] without the bindings of [k]. *)
Definition remove_key (k : string) (d : dict) : dict :=
  filter (fun kv => negb (String.eqb k (fst kv))) d.

(** An annotation without its creation timestamp. *)
Definition without_created (annotation : json) : json :=
  match annotation with
  | JDict d => JDict (remove_key "wlmo:created" d)
  | _ => annotation
  end.

(** A log record without the creation timestamps of the annotations
    it publishes. *)
Definition content (ev : event) : event :=
  match ev with
  | Published (JDict ((k, JList annotations) :: rest)) =>
      Published (JDict ((k, JList (map without_created annotations)) :: rest))
  | _ => ev
  end.

(** The result of a computation seen through [f]. *)
Definition rmap {A B} (f : A -> B) (r : result A) : result B :=
  match r with
  | Ok a => Ok (f a)
  | Raise e => Raise e
  end.

(** ** Payloads and worlds of the examples *)

(** The payload of the example run of [main.py], under the identifier ["J1"]. *)
Definition job_J1 : json :=
  JDict [ ("jobId", JStr "J1");
          ("object", JDict [ ("id", JStr "urn:example:1234");
                             ("type", JStr "DigitalMediaObject");
                             ("ac:accessURI", JStr "https://example.org/test-image.jpg") ]) ].

(** A job as the queue delivers it, but for the image locator. *)
Definition job_without_locator : json :=
  JDict [ ("jobId", JStr "J1");
          ("object", JDict [ ("id", JStr "urn:example:1234");
                             ("type", JStr "DigitalMediaObject") ]) ].

(** Two detections, the second without a bounding box. *)
Definition two_detections : json :=
  JList [ JDict [("class", JStr "Jaquar");
                 ("boundingBox", JDict [("x", JInt 30); ("y", JInt 50)])];
          JDict [("class", JStr "Ocelot"); ("score", JInt 1)] ].

(** A detection whose bounding box has a null [x]. *)
Definition detection_with_null_x : json :=
  JDict [ ("class", JStr "Jaquar");
          ("boundingBox", JDict [("x", JNull); ("y", JInt 50)]) ].

(** A world whose clock moves on with every reading and whose
    detection service is down. *)
Definition fixed_clock : World :=
  {| clock := fun n => ("2024-05-01T10:00:0" ++ str_of_int (Z.of_nat n))%string;
     service := fun _ _ => Raise (RequestError "503 Server Error") |}.

(** A service in the way of the repository's own endpoint, which
    refuses a request without an image locator. *)
Definition strict_service : World :=
  {| clock := fun _ => "2024-05-01T10:00:00"%string;
     service := fun _ payload =>
       match payload with
       | JDict [(_, JStr _)] =>
           Ok (JDict [("output", JList []); ("image_height", JInt 1024);
                      ("image_width", JInt 768)])
       | _ => Raise (RequestError "422 Client Error: Unprocessable Entity for url: https://wildlive.senckenberg.de/run_jaquar_detection")
       end |}.

(** A service that answers whatever it is asked. *)
Definition lenient_service : World :=
  {| clock := fun _ => "2024-05-01T10:00:00"%string;
     service := fun _ _ => Ok (JDict [("image_height", JInt 1024)]) |}.

(** The answer of the repository's demonstration endpoint; the clock
    moves on with every reading. *)
Definition demo_service : World :=
  {| clock := fun n => ("2024-05-01T10:00:0" ++ str_of_int (Z.of_nat n))%string;
     service := fun _ _ =>
       Ok (JDict
             [ ("image_url", JStr "https://example.org/test-image.jpg");
               ("output",
                JList [ JDict [ ("class", JStr "Jaquar");
                                ("score", JFloat (S754_finite false 8196551321814303 (-53)));
                                ("boundingBox",
                                 JDict [ ("x", JInt 30); ("y", JInt 50);
                                         ("width", JInt 100);
                                         ("height", JInt 120) ]) ] ]);
               ("image_height", JInt 1024);
               ("image_width", JInt 768) ]) |}.

(** A service whose second detection has a null [x]. *)
Definition null_x_service : World :=
  {| clock := fun _ => "2024-05-01T10:00:00"%string;
     service := fun _ _ =>
       Ok (JDict [ ("output",
                    JList [ JDict [("class", JStr "Ocelot")];
                            detection_with_null_x ]) ]) |}.

(** ** Reading a printed integer back *)

(** The number [scan_digits] reads from the digits [d], started at [acc]. *)
Fixpoint uint_value (d : Decimal.uint) (acc : Z) : Z :=
  match d with
  | Decimal.Nil => acc
  | Decimal.D0 l => uint_value l (acc * 10 + 0)
  | Decimal.D1 l => uint_value l (acc * 10 + 1)
  | Decimal.D2 l => uint_value l (acc * 10 + 2)
  | Decimal.D3 l => uint_value l (acc * 10 + 3)
  | Decimal.D4 l => uint_value l (acc * 10 + 4)
  | Decimal.D5 l => uint_value l (acc * 10 + 5)
  | Decimal.D6 l => uint_value l (acc * 10 + 6)
  | Decimal.D7 l => uint_value l (acc * 10 + 7)
  | Decimal.D8 l => uint_value l (acc * 10 + 8)
  | Decimal.D9 l => uint_value l (acc * 10 + 9)
  end.

(** A text without a comma. *)
Definition comma_free (s : string) : bool := negb (contains ","%char s).

(** A service whose body is a JSON list. *)
Definition list_body_service : World :=
  {| clock := fun _ => "2024-05-01T10:00:00"%string;
     service := fun _ _ => Ok (JList []) |}.

(** ** The demonstration endpoint of [service.py] *)

Module Service.

(** The response model of the endpoint. *)
Record ProcessedMessageRequest : Type := {
  image_url : string;
  output : list json;
  image_height : Z;
  image_width : Z
}.

(** How a call of the handler ends: it returns, or it raises
    [HTTPException(status_code, detail)]. *)
Inductive ended (A : Type) : Type :=
| Returned (a : A)
| HTTPException (status_code : Z) (detail : string).
Arguments Returned {A} a.
Arguments HTTPException {A} status_code detail.

Inductive log_line : Type :=
| Info (message : string)
| Error (message : string).

Definition process_jaquar_detection (image_url : string)
  : ProcessedMessageRequest :=
  let dummy_output :=
    [ JDict [ ("class", JStr "Jaquar");
              ("score", JFloat (S754_finite false 8196551321814303 (-53)));
              ("boundingBox",
               JDict [ ("x", JInt 30); ("y", JInt 50);
                       ("width", JInt 100); ("height", JInt 120) ]) ] ] in
  {| image_url := image_url;
     output := dummy_output;
     image_height := 1024;
     image_width := 768 |}.

(** [str(e)] of an [HTTPException], as the framework defines it: the
    status code, a colon, the detail. *)
Definition str_http_exception (status_code : Z) (detail : string) : string :=
  (str_of_int status_code ++ ": " ++ detail)%string.

(** The handler of [POST /run_jaquar_detection], on a request whose
    [image_url] is the given text: what it returns or raises, and the
    lines it logs.  The [HTTPException] raised inside the [try] is an
    [Exception], so the [except] clause of the handler catches it. *)
Definition run_detection (request_image_url : string)
  : ended ProcessedMessageRequest * list log_line :=
  let info := Info ("Processing input image: " ++ request_image_url)%string in
  let tried :=
    if String.eqb request_image_url "" then
      HTTPException 400 "No image_url provided."
    else Returned (process_jaquar_detection request_image_url) in
  match tried with
  | Returned result => (Returned result, [info])
  | HTTPException status_code detail =>
      let e := str_http_exception status_code detail in
      (HTTPException 500 ("Error processing image: " ++ e)%string,
       [info; Error ("Error during detection: " ++ e)%string])
  end.

End Service.

(** The JSON object the endpoint sends for a response model. *)
Definition body_of (r : Service.ProcessedMessageRequest) : json :=
  JDict [ ("image_url", JStr (Service.image_url r));
          ("output", JList (Service.output r));
          ("image_height", JInt (Service.image_height r));
          ("image_width", JInt (Service.image_width r)) ].

(** A world whose detection service is that endpoint: a request with a
    text for [image_url] gets the body the handler returns, or makes
    the client's request raise when the handler raises. *)
Definition served_by_endpoint (w : World) : Prop :=
  forall n u,
    match fst (Service.run_detection u) with
    | Service.Returned r =>
        service w n (payload_of (JStr u)) = Ok (body_of r)
    | Service.HTTPException _ _ =>
        exists msg, service w n (payload_of (JStr u)) = Raise (RequestError msg)
    end.

Definition endpoint_world : World :=
  {| clock := fun _ => "2024-05-01T10:00:00"%string;
     service := fun _ payload =>
       match payload with
       | JDict [(_, JStr u)] =>
           match fst (Service.run_detection u) with
           | Service.Returned r => Ok (body_of r)
           | Service.HTTPException _ _ =>
               Raise (RequestError "500 Server Error: Internal Server Error for url: https://wildlive.senckenberg.de/run_jaquar_detection")
           end
       | _ => Raise (RequestError "422 Client Error: Unprocessable Entity for url: https://wildlive.senckenberg.de/run_jaquar_detection")
       end |}.

(** ** The stages of a job, as the code runs them *)

(** The state of a job once it is marked as running. *)
Definition running (d : dict) (s : State) : State :=
  {| ticks := ticks s;
     log := log s ++
       [ Processing (JDict d);
         MarkedRunning (match lookup "jobId" d with
                        | Some j => j
                        | None => JNull
                        end) ] |}.

(** [stage_raises w d s e]: in the job on payload [d] started in state
    [s], the stages before one of them return and that one raises [e].
    The stages are those of the [try] block of [process_annotation_job]:
    the extraction of the object and its locator, the detection call,
    the mapping, the construction of the event. *)
Inductive stage_raises (w : World) (d : dict) (s : State) (e : exn) : Prop :=
| raises_in_extraction :
    (o <- py_getitem (JDict d) "object" ;;
     py_get o "ac:accessURI" JNull)%result = Raise e ->
    stage_raises w d s e
| raises_in_detection (o uri : json) :
    py_getitem (JDict d) "object" = Ok o ->
    py_get o "ac:accessURI" JNull = Ok uri ->
    fst (run_wildlive_detection w uri (running d s)) = Raise e ->
    stage_raises w d s e
| raises_in_mapping (o uri dets h wd : json) (s2 : State) :
    py_getitem (JDict d) "object" = Ok o ->
    py_get o "ac:accessURI" JNull = Ok uri ->
    run_wildlive_detection w uri (running d s) = (Ok (dets, h, wd), s2) ->
    fst (map_result_to_wlmo_annotation w o dets h wd s2) = Raise e ->
    stage_raises w d s e
| raises_in_event_construction (o uri dets h wd : json) (s2 s3 : State)
                               (anns : list json) :
    py_getitem (JDict d) "object" = Ok o ->
    py_get o "ac:accessURI" JNull = Ok uri ->
    run_wildlive_detection w uri (running d s) = (Ok (dets, h, wd), s2) ->
    map_result_to_wlmo_annotation w o dets h wd s2 = (Ok anns, s3) ->
    py_getitem (JDict d) "jobId" = Raise e ->
    stage_raises w d s e.

(** A service whose call ends in an exception that has no text. *)
Definition mute_service : World :=
  {| clock := fun _ => "2024-05-01T10:00:00"%string;
     service := fun _ _ => Raise (RequestError "") |}.

(** * Properties *)

(** ** The selector builder *)

Lemma py_get_dict (d : dict) (k : string) (default : json) :
  py_get (JDict d) k default =
  Ok (match lookup k d with Some v => v | None => default end).
Proof. unfold py_get. destruct (lookup k d); reflexivity. Qed.

Lemma build_selector_unfold (det box : dict) :
  box_of det = JDict box ->
  build_wlmo_fragment_selector (JDict det) =
  (x <- py_int (field box "x") ;;
   y <- py_int (field box "y") ;;
   w <- py_int (field box "width") ;;
   h <- py_int (field box "height") ;;
   Ok (selector x y w h))%result.
Proof.
  intros Hbox. unfold build_wlmo_fragment_selector.
  rewrite py_get_dict. fold (box_of det). rewrite Hbox.
  cbn [rbind]. rewrite !py_get_dict. reflexivity.
Qed.

Lemma field_ok_coercible (box : dict) (k : string) :
  field_ok box k = coercible (field box k).
Proof.
  unfold field_ok, field. destruct (lookup k box); reflexivity.
Qed.

Lemma build_selector_total_iff (det : json) :
  (exists sel, build_wlmo_fragment_selector det = Ok sel)
  <-> well_formed_detection det = true.
Proof.
  destruct det as [| b | z | f | s | l | d];
    try (split; [intros [sel H]; discriminate H | intros H; discriminate H]).
  unfold well_formed_detection.
  destruct (lookup "boundingBox" d) as [b|] eqn:Hb.
  - destruct b as [| b | z | f | s | l | box];
      try (split; [intros [sel H]; unfold build_wlmo_fragment_selector in H;
                   rewrite py_get_dict, Hb in H; discriminate H
                  | intros H; discriminate H]).
    rewrite (build_selector_unfold d box) by (unfold box_of; now rewrite Hb).
    rewrite !field_ok_coercible. unfold coercible.
    destruct (py_int (field box "x")); cbn;
      [| split; [intros [? H]; discriminate | discriminate]].
    destruct (py_int (field box "y")); cbn;
      [| split; [intros [? H]; discriminate | discriminate]].
    destruct (py_int (field box "width")); cbn;
      [| split; [intros [? H]; discriminate | discriminate]].
    destruct (py_int (field box "height")); cbn;
      [| split; [intros [? H]; discriminate | discriminate]].
    split; eauto.
  - rewrite (build_selector_unfold d []) by (unfold box_of; now rewrite Hb).
    cbn. split; eauto.
Qed.

(** ** The mapper *)

Section Mapper.

Variables (digital_object : json) (timestamp : string) (agent : json).

Local Abbreviation body := (annotation_of digital_object timestamp agent).
Local Abbreviation loop := (for_detections digital_object timestamp agent).

(** The list built so far is only ever extended at its end. *)
Lemma for_detections_acc (dets acc : list json) :
  loop dets acc = (l <- loop dets [] ;; Ok (acc ++ l)%list)%result.
Proof.
  revert acc.
  induction dets as [| det rest IH]; intros acc; cbn.
  - now rewrite app_nil_r.
  - destruct (annotation_of digital_object timestamp agent det) as [a | e];
      cbn; [| reflexivity].
    rewrite (IH (acc ++ [a])%list), (IH [a]).
    destruct (for_detections digital_object timestamp agent rest []); cbn;
      [| reflexivity].
    now rewrite <- app_assoc.
Qed.

Lemma for_detections_cons (det : json) (rest : list json) :
  loop (det :: rest) [] =
  (a <- body det ;; l <- loop rest [] ;; Ok (a :: l))%result.
Proof.
  cbn.
  destruct (annotation_of digital_object timestamp agent det) as [a | e];
    cbn; [| reflexivity].
  now rewrite for_detections_acc.
Qed.

(** The loop succeeds exactly when its body does on every detection,
    and then returns the bodies' results in the order of the input. *)
Lemma for_detections_Forall2 (dets anns : list json) :
  loop dets [] = Ok anns <->
  Forall2 (fun det ann => body det = Ok ann) dets anns.
Proof.
  revert anns. induction dets as [| det rest IH]; intros anns.
  - cbn. split.
    + intros H. injection H as <-. constructor.
    + intros H. inversion H. reflexivity.
  - rewrite for_detections_cons. split.
    + intros H. destruct (body det) as [a | e] eqn:Ha; [| discriminate].
      cbn in H. destruct (loop rest []) as [l | e] eqn:Hl; [| discriminate].
      cbn in H. injection H as <-. constructor; [assumption |].
      now apply IH.
    + intros H. inversion H as [| ? a ? l Ha Hl]; subst.
      rewrite Ha. cbn. apply IH in Hl. rewrite Hl. reflexivity.
Qed.

(** The first detection the body rejects makes the whole loop raise. *)
Lemma for_detections_raises (dets : list json) (det : json) :
  In det dets -> (forall a, body det <> Ok a) ->
  exists e, loop dets [] = Raise e.
Proof.
  intros Hin Hbad.
  destruct (loop dets []) as [anns | e] eqn:H; [| eauto].
  apply for_detections_Forall2 in H. exfalso.
  induction H as [| d a ds l Hd _ IH]; [destruct Hin |].
  destruct Hin as [-> | Hin]; [now apply (Hbad a) | now apply IH].
Qed.

End Mapper.

Lemma annotation_of_ok_iff (o : json) (ts : string) (agent det : json) :
  (exists a, annotation_of o ts agent det = Ok a) <->
  well_formed_detection det = true /\ exists d, o = JDict d.
Proof.
  unfold annotation_of. rewrite <- build_selector_total_iff. split.
  - intros [a H].
    destruct (build_wlmo_fragment_selector det) as [sel | e] eqn:Hsel;
      [| discriminate].
    split; [eauto |].
    destruct det; try discriminate Hsel.
    rewrite !py_get_dict in H. cbn [rbind] in H.
    destruct o; try discriminate H. eauto.
  - intros [[sel Hsel] [d ->]]. rewrite Hsel.
    destruct det; try discriminate Hsel.
    rewrite !py_get_dict. cbn [rbind]. eauto.
Qed.

(** What one call of the mapper does to the state: the clock is read
    once, nothing is logged. *)
Lemma map_result_run (w : World) (o dets h wd : json) (s : State) :
  map_result_to_wlmo_annotation w o dets h wd s =
  ((l <- py_iter dets ;;
    for_detections o (clock w (ticks s) ++ "Z") get_agent l [])%result,
   {| ticks := S (ticks s); log := log s |}).
Proof. reflexivity. Qed.

(** ** The detection client *)

(** One call of the client: one request, and one more log record when
    the request or the reading of its answer raises. *)
Lemma run_wildlive_detection_run (w : World) (uri : json) (s : State) :
  run_wildlive_detection w uri s =
  match (r <- service w (posts (log s)) (payload_of uri) ;; read_response r)%result with
  | Ok t => (Ok t, {| ticks := ticks s;
                      log := log s ++ [HttpPost (payload_of uri)] |})
  | Raise e => (Raise e, {| ticks := ticks s;
                            log := log s ++ [HttpPost (payload_of uri);
                                              DetectionFailed e] |})
  end.
Proof.
  unfold run_wildlive_detection, try_except, bind, post, lift, emit, raise.
  fold (payload_of uri). cbn [log ticks].
  destruct (service w (posts (log s)) (payload_of uri)) as [r | e]; cbn [rbind].
  - fold (read_response r). destruct (read_response r); cbn; [reflexivity |].
    now rewrite <- app_assoc.
  - cbn. now rewrite <- app_assoc.
Qed.

Lemma posts_app (l1 l2 : list event) : posts (l1 ++ l2) = (posts l1 + posts l2)%nat.
Proof. unfold posts. now rewrite filter_app, length_app. Qed.

(** ** The orchestrator *)

(** A job whose payload is a [dict] always returns to its caller, and
    its log grows by [job_events]. *)
Lemma posts_quiet (l : list event) (ev1 ev2 : event) :
  is_post ev1 = false -> is_post ev2 = false ->
  posts ((l ++ [ev1]) ++ [ev2]) = posts l.
Proof.
  intros H1 H2. rewrite !posts_app. unfold posts. cbn. rewrite H1, H2. cbn. lia.
Qed.

Ltac run_step :=
  cbn [ticks log fst snd rbind];
  repeat rewrite <- app_assoc; cbn [app].

Lemma process_annotation_job_run (w : World) (d : dict) (s : State) :
  exists t,
    process_annotation_job w (JDict d) s =
    (Ok tt, {| ticks := t; log := log s ++ job_events w d s |}).
Proof.
  unfold process_annotation_job, job_events, try_except, failure, success,
    mark_job_as_running, publish_annotation_event, send_failed_message,
    bind, lift, emit.
  rewrite !py_get_dict. run_step.
  destruct (py_getitem (JDict d) "object") as [o | e];
    [| run_step; eexists; reflexivity].
  destruct (py_get o "ac:accessURI" JNull) as [uri | e];
    [| run_step; eexists; reflexivity].
  rewrite run_wildlive_detection_run. run_step.
  replace (posts (log s ++ _)) with (posts (log s))
    by (rewrite posts_app; cbn; lia).
  destruct (r <- service w (posts (log s)) (payload_of uri) ;; read_response r)%result
    as [[[dets h] wd] | e]; [| run_step; eexists; reflexivity].
  rewrite map_result_run. run_step.
  destruct (l <- py_iter dets ;; for_detections o _ get_agent l [])%result
    as [anns | e]; [| run_step; eexists; reflexivity].
  destruct (py_getitem (JDict d) "jobId") as [j | e];
    run_step; eexists; reflexivity.
Qed.

(** A payload that is not a [dict] is outside the declared type of the
    task: the first [.get] raises, and so does the one of the handler. *)
Remark process_annotation_job_not_dict (w : World) (job_data : json) (s : State) :
  (forall d, job_data <> JDict d) ->
  exists e s', process_annotation_job w job_data s = (Raise e, s').
Proof.
  intros H. destruct job_data; try (eexists; eexists; reflexivity).
  now destruct (H d).
Qed.

(** The records of a job that passes every stage. *)
Lemma job_events_success (w : World) (d o resp : dict) (s : State)
      (j uri : json) (dets anns : list json) :
  lookup "object" d = Some (JDict o) ->
  lookup "jobId" d = Some j ->
  py_get (JDict o) "ac:accessURI" JNull = Ok uri ->
  service w (posts (log s)) (payload_of uri) = Ok (JDict resp) ->
  py_get (JDict resp) "output" (JList []) = Ok (JList dets) ->
  for_detections (JDict o) (clock w (ticks s) ++ "Z")%string get_agent dets []
    = Ok anns ->
  job_events w d s =
  [ Processing (JDict d); MarkedRunning j; HttpPost (payload_of uri);
    success (JList anns) j ].
Proof.
  intros Ho Hj Huri Hresp Hout Hanns. unfold job_events.
  cbn [py_getitem]. rewrite Ho, Hj, Huri, Hresp. cbn [rbind].
  unfold read_response. rewrite Hout. cbn [rbind].
  rewrite !py_get_dict. cbn [rbind py_iter]. rewrite Hanns. reflexivity.
Qed.

(** The records of a job whose mapping stage raises. *)
Lemma job_events_mapping_raises (w : World) (d : dict) (s : State)
      (o uri body : json) (dets h wd : json) (e : exn) :
  lookup "object" d = Some o ->
  py_get o "ac:accessURI" JNull = Ok uri ->
  service w (posts (log s)) (payload_of uri) = Ok body ->
  read_response body = Ok (dets, h, wd) ->
  (l <- py_iter dets ;;
   for_detections o (clock w (ticks s) ++ "Z")%string get_agent l [])%result
    = Raise e ->
  job_events w d s =
  [ Processing (JDict d);
    MarkedRunning (match lookup "jobId" d with Some j => j | None => JNull end);
    HttpPost (payload_of uri) ] ++ failure d e.
Proof.
  intros Ho Huri Hresp Hread Hmap. unfold job_events.
  cbn [py_getitem]. rewrite Ho, Huri, Hresp. cbn [rbind].
  rewrite Hread, Hmap. reflexivity.
Qed.

(** ** Fragment selector *)

(** C5. The selector of a detection carries the text
    [xywh=x,y,w,h], where [x], [y], [w], [h] are the integers [int]
    makes of the box's [x], [y], [width], [height], a missing field
    counting as 0; box [{x:30,y:50,width:100,height:120}] gives
    ["xywh=30,50,100,120"] and an empty or absent box gives
    ["xywh=0,0,0,0"]. *)
Theorem fragment_selector_value (det box : dict) (x y w h : Z) :
  box_of det = JDict box ->
  py_int (field box "x") = Ok x ->
  py_int (field box "y") = Ok y ->
  py_int (field box "width") = Ok w ->
  py_int (field box "height") = Ok h ->
  build_wlmo_fragment_selector (JDict det) = Ok (selector x y w h)
  /\ py_get (selector x y w h) "wlmo:value" JNull
     = Ok (JStr ("xywh=" ++ str_of_int x ++ "," ++ str_of_int y ++ ","
                  ++ str_of_int w ++ "," ++ str_of_int h)%string)
  /\ (forall k, lookup k box = None -> field box k = JInt 0)
  /\ build_wlmo_fragment_selector
       (JDict [("boundingBox",
                JDict [("x", JInt 30); ("y", JInt 50);
                       ("width", JInt 100); ("height", JInt 120)])])
     = Ok (JDict [ ("@type", JStr "wlmo:FragmentSelector");
                   ("wlmo:value", JStr "xywh=30,50,100,120");
                   ("wlmo:conformsTo", JStr "http://www.w3.org/TR/media-frags/") ])
  /\ build_wlmo_fragment_selector (JDict [("boundingBox", JDict [])])
     = Ok (JDict [ ("@type", JStr "wlmo:FragmentSelector");
                   ("wlmo:value", JStr "xywh=0,0,0,0");
                   ("wlmo:conformsTo", JStr "http://www.w3.org/TR/media-frags/") ])
  /\ build_wlmo_fragment_selector (JDict [])
     = build_wlmo_fragment_selector (JDict [("boundingBox", JDict [])]).
Proof.
  intros Hbox Hx Hy Hw Hh. repeat split.
  - rewrite (build_selector_unfold det box Hbox), Hx, Hy, Hw, Hh. reflexivity.
  - intros k Hk. unfold field. now rewrite Hk.
Qed.

Lemma fragment_selector_value_witness :
  build_wlmo_fragment_selector
    (JDict [("class", JStr "Jaquar");
            ("boundingBox", JDict [("x", JStr " 30 "); ("width", JBool true);
                                   ("height", JFloat (S754_finite true 7 (-1)))])])
  = Ok (selector 30 0 1 (-3)).
Proof.
  apply (fragment_selector_value
           [("class", JStr "Jaquar");
            ("boundingBox", JDict [("x", JStr " 30 "); ("width", JBool true);
                                   ("height", JFloat (S754_finite true 7 (-1)))])]
           [("x", JStr " 30 "); ("width", JBool true);
            ("height", JFloat (S754_finite true 7 (-1)))]);
    reflexivity.
Defined.

(** ** Annotation mapper *)

(** C9. The image height and width handed to the mapper have no
    influence on what it returns nor on the state it leaves. *)
Theorem mapper_ignores_image_dimensions
        (w : World) (digital_object detections : json)
        (height1 width1 height2 width2 : json) (s : State) :
  map_result_to_wlmo_annotation w digital_object detections height1 width1 s
  = map_result_to_wlmo_annotation w digital_object detections height2 width2 s.
Proof. reflexivity. Qed.

Lemma annotation_of_created (o : json) (ts : string) (agent det a : json) :
  annotation_of o ts agent det = Ok a ->
  py_get a "wlmo:created" JNull = Ok (JStr ts).
Proof.
  unfold annotation_of. intros H.
  destruct (build_wlmo_fragment_selector det); [| discriminate].
  cbn [rbind] in H.
  destruct (py_get det "class" JNull); [| discriminate].
  destruct (py_get det "score" JNull); [| discriminate].
  cbn [rbind] in H.
  destruct (py_get o "id" JNull); [| discriminate].
  injection H as <-. reflexivity.
Qed.

(** C6. One call of the mapper reads the clock exactly once, and every
    annotation it returns carries that one reading as its creation
    timestamp. *)
Theorem one_timestamp_per_mapping
        (w : World) (digital_object detections height width : json)
        (s s' : State) (annotations : list json) :
  map_result_to_wlmo_annotation w digital_object detections height width s
  = (Ok annotations, s') ->
  ticks s' = S (ticks s)
  /\ Forall (fun a => py_get a "wlmo:created" JNull
                      = Ok (JStr (clock w (ticks s) ++ "Z")%string))
            annotations
  /\ (forall a b, In a annotations -> In b annotations ->
        py_get a "wlmo:created" JNull = py_get b "wlmo:created" JNull).
Proof.
  rewrite map_result_run. intros H. injection H as Hr <-.
  assert (Hall : Forall (fun a => py_get a "wlmo:created" JNull
                      = Ok (JStr (clock w (ticks s) ++ "Z")%string))
            annotations).
  { destruct (py_iter detections) as [l | e]; [| discriminate].
    cbn [rbind] in Hr. apply for_detections_Forall2 in Hr.
    induction Hr as [| det a dets anns Ha _ IH]; constructor; [| exact IH].
    exact (annotation_of_created _ _ _ _ _ Ha). }
  split; [reflexivity |]. split; [exact Hall |].
  intros a b Ha Hb. rewrite Forall_forall in Hall.
  now rewrite (Hall a Ha), (Hall b Hb).
Qed.

Lemma one_timestamp_per_mapping_witness :
  match map_result_to_wlmo_annotation fixed_clock
          (JDict [("id", JStr "urn:example:1234")]) two_detections
          (JInt 1024) (JInt 768) init with
  | (Ok anns, s') =>
      List.length anns = 2%nat /\ ticks s' = 1%nat /\
      Forall (fun a => py_get a "wlmo:created" JNull
                       = Ok (JStr "2024-05-01T10:00:00Z")) anns
  | (Raise _, _) => False
  end.
Proof.
  pose proof (one_timestamp_per_mapping fixed_clock
                (JDict [("id", JStr "urn:example:1234")]) two_detections
                (JInt 1024) (JInt 768) init _ _ eq_refl) as [Ht [Hall _]].
  exact (conj eq_refl (conj Ht Hall)).
Defined.

(** C1. Over a digital object that is a [dict] and a list of [N]
    well-formed detections the mapper returns exactly [N] annotations,
    the [i]-th one built from the [i]-th detection; a job that comes
    this far publishes them all. *)
Theorem one_annotation_per_detection
        (w : World) (o : dict) (dets : list json) (height width : json)
        (s : State) :
  forallb well_formed_detection dets = true ->
  exists anns,
    map_result_to_wlmo_annotation w (JDict o) (JList dets) height width s
    = (Ok anns, {| ticks := S (ticks s); log := log s |})
    /\ List.length anns = List.length dets
    /\ Forall2 (fun det ann =>
                  annotation_of (JDict o) (clock w (ticks s) ++ "Z")%string
                                get_agent det = Ok ann) dets anns
    /\ (forall d resp j uri,
          lookup "object" d = Some (JDict o) ->
          lookup "jobId" d = Some j ->
          py_get (JDict o) "ac:accessURI" JNull = Ok uri ->
          service w (posts (log s)) (payload_of uri) = Ok (JDict resp) ->
          lookup "output" resp = Some (JList dets) ->
          exists t,
            process_annotation_job w (JDict d) s =
            (Ok tt, {| ticks := t;
                       log := log s ++ [ Processing (JDict d); MarkedRunning j;
                                         HttpPost (payload_of uri);
                                         success (JList anns) j ] |})).
Proof.
  intros Hwf. rewrite map_result_run. cbn [py_iter rbind].
  assert (Hex : exists anns,
             Forall2 (fun det ann =>
                  annotation_of (JDict o) (clock w (ticks s) ++ "Z")%string
                                get_agent det = Ok ann) dets anns).
  { induction dets as [| det rest IH]; [exists []; constructor |].
    cbn in Hwf. apply andb_true_iff in Hwf as [Hdet Hrest].
    destruct (IH Hrest) as [anns Hanns].
    destruct (proj2 (annotation_of_ok_iff (JDict o)
                       (clock w (ticks s) ++ "Z")%string get_agent det))
      as [a Ha]; [split; eauto |].
    exists (a :: anns). now constructor. }
  destruct Hex as [anns Hanns]. exists anns.
  pose proof (proj2 (for_detections_Forall2 _ _ _ _ _) Hanns) as Hrun.
  rewrite Hrun. split; [reflexivity |].
  split; [symmetry; exact (Forall2_length Hanns) |].
  split; [exact Hanns |].
  intros d resp j uri Ho Hj Huri Hresp Hout.
  destruct (process_annotation_job_run w d s) as [t Ht]. exists t.
  rewrite Ht.
  rewrite (job_events_success w d o resp s j uri dets anns); try assumption;
    [reflexivity |].
  rewrite py_get_dict, Hout. reflexivity.
Qed.

Lemma one_annotation_per_detection_witness :
  exists anns,
    fst (map_result_to_wlmo_annotation fixed_clock
           (JDict [("id", JStr "urn:example:1234")]) two_detections
           (JInt 1024) (JInt 768) init) = Ok anns
    /\ List.length anns = 2%nat.
Proof.
  destruct (one_annotation_per_detection fixed_clock
              [("id", JStr "urn:example:1234")]
              [ JDict [("class", JStr "Jaquar");
                       ("boundingBox", JDict [("x", JInt 30); ("y", JInt 50)])];
                JDict [("class", JStr "Ocelot"); ("score", JInt 1)] ]
              (JInt 1024) (JInt 768) init eq_refl)
    as [anns [Hrun [Hlen _]]].
  exists anns. split; [| exact Hlen].
  unfold two_detections. rewrite Hrun. reflexivity.
Defined.

(** ** Exceptions raised inside the worker have a text *)

Create HintDb said discriminated.

Lemma py_get_said (v : json) (k : string) (default : json) (e : exn) :
  py_get v k default = Raise e -> said e.
Proof.
  destruct v; cbn; try (intros H; injection H as <-; discriminate).
  destruct (lookup k d); discriminate.
Qed.

Lemma py_getitem_said (v : json) (k : string) (e : exn) :
  py_getitem v k = Raise e -> said e.
Proof.
  destruct v; cbn; try (intros H; injection H as <-; discriminate).
  destruct (lookup k d); [discriminate |].
  intros H; injection H as <-. discriminate.
Qed.

Lemma py_iter_said (v : json) (e : exn) :
  py_iter v = Raise e -> said e.
Proof.
  destruct v; cbn; try discriminate; intros H; injection H as <-; discriminate.
Qed.

Lemma py_int_said (v : json) (e : exn) :
  py_int v = Raise e -> said e.
Proof.
  destruct v as [| b | z | f | s | l | d]; cbn; try discriminate;
    try (intros H; injection H as <-; discriminate).
  - destruct f; try discriminate; intros H; injection H as <-; discriminate.
  - destruct (int_of_string s); [discriminate |].
    intros H; injection H as <-. discriminate.
Qed.

#[local] Hint Resolve py_get_said py_getitem_said py_iter_said py_int_said : said.

(** Peel one [rbind] off a computation that raised. *)
Ltac raised H :=
  match type of H with
  | rbind ?c _ = Raise _ =>
      let E := fresh "E" in
      destruct c eqn:E; cbn [rbind] in H;
      [| injection H as <-; eauto with said]
  end.

Lemma build_selector_said (det : json) (e : exn) :
  build_wlmo_fragment_selector det = Raise e -> said e.
Proof.
  unfold build_wlmo_fragment_selector. intros H.
  repeat raised H. discriminate.
Qed.

#[local] Hint Resolve build_selector_said : said.

Lemma annotation_of_said (o : json) (ts : string) (agent det : json) (e : exn) :
  annotation_of o ts agent det = Raise e -> said e.
Proof.
  unfold annotation_of. intros H. repeat raised H. discriminate.
Qed.

#[local] Hint Resolve annotation_of_said : said.

Lemma for_detections_said (o : json) (ts : string) (agent : json)
      (dets acc : list json) (e : exn) :
  for_detections o ts agent dets acc = Raise e -> said e.
Proof.
  revert acc. induction dets as [| det rest IH]; intros acc H; cbn in H.
  - discriminate.
  - raised H. eauto.
Qed.

Lemma read_response_said (body : json) (e : exn) :
  read_response body = Raise e -> said e.
Proof.
  unfold read_response. intros H. repeat raised H. discriminate.
Qed.

#[local] Hint Resolve for_detections_said read_response_said : said.

Ltac say :=
  match goal with
  | |- str_exn ?e <> _ => change (said e); eauto with said
  end.

(** ** Orchestrator: outcomes *)

(** C3. A job whose payload is a [dict] leaves exactly one outcome in
    the log: one published event and no failure notice, or one failure
    notice and no published event. *)
Theorem exactly_one_outcome (w : World) (d : dict) (s : State) :
  exists t evs,
    process_annotation_job w (JDict d) s
    = (Ok tt, {| ticks := t; log := log s ++ evs |})
    /\ ((published evs = 1 /\ failed evs = 0)
        \/ (published evs = 0 /\ failed evs = 1))%nat.
Proof.
  destruct (process_annotation_job_run w d s) as [t Ht].
  exists t, (job_events w d s). split; [exact Ht |].
  unfold job_events, failure, success.
  destruct (py_getitem (JDict d) "object") as [o | e]; [| right; split; reflexivity].
  destruct (py_get o "ac:accessURI" JNull) as [uri | e];
    [| right; split; reflexivity].
  destruct (r <- service w (posts (log s)) (payload_of uri) ;; read_response r)%result
    as [[[dets h] wd] | e]; [| right; split; reflexivity].
  destruct (l <- py_iter dets ;; for_detections o _ get_agent l [])%result
    as [anns | e]; [| right; split; reflexivity].
  destruct (py_getitem (JDict d) "jobId") as [j | e];
    [left | right]; split; reflexivity.
Qed.

(** What the detection client does in a job that is marked as running. *)
Lemma run_wildlive_detection_running (w : World) (d : dict) (s : State)
      (uri : json) :
  run_wildlive_detection w uri (running d s) =
  match (r <- service w (posts (log s)) (payload_of uri) ;; read_response r)%result with
  | Ok t => (Ok t, {| ticks := ticks s;
                      log := log (running d s) ++ [HttpPost (payload_of uri)] |})
  | Raise e => (Raise e, {| ticks := ticks s;
                            log := log (running d s)
                                   ++ [HttpPost (payload_of uri);
                                       DetectionFailed e] |})
  end.
Proof.
  rewrite run_wildlive_detection_run.
  replace (posts (log (running d s))) with (posts (log s))
    by (unfold running; cbn [log]; rewrite posts_app; cbn; lia).
  reflexivity.
Qed.

(** C7, as stated, fails on the text of the notice: when the remote
    call ends in an exception that has no text, the failure notice of
    the job carries the empty text. *)
Lemma notice_with_empty_text :
  process_annotation_job mute_service job_J1 init
  = (Ok tt,
     {| ticks := 0;
        log := [ Processing job_J1; MarkedRunning (JStr "J1");
                 HttpPost (payload_of (JStr "https://example.org/test-image.jpg"));
                 DetectionFailed (RequestError "");
                 ErrorLogged (RequestError "");
                 FailedMessage (JStr "J1") "" ] |}).
Proof. reflexivity. Qed.

(** C7, amended. A job whose payload is a [dict] never raises to its
    caller.  When a stage of the job raises [e], whichever stage it is,
    the run ends with the failure notice for the job identifier, or for
    ["unknown"] when the payload has none, with [str(e)] as its text,
    and nothing is published; when no stage raises, the run ends with
    the published event and no notice.  The text of the notice is empty
    only when the remote call itself raised an exception without text. *)
Theorem failures_become_notices (w : World) (d : dict) (s : State) :
  exists t evs,
    process_annotation_job w (JDict d) s
    = (Ok tt, {| ticks := t; log := log s ++ evs |})
    /\ (forall e,
          stage_raises w d s e ->
          exists pre,
            evs = pre ++ [ ErrorLogged e;
                           FailedMessage
                             (match lookup "jobId" d with
                              | Some j => j
                              | None => JStr "unknown"
                              end) (str_exn e) ]
            /\ published pre = 0%nat /\ failed pre = 0%nat
            /\ (str_exn e = ""%string ->
                exists uri,
                  service w (posts (log s)) (payload_of uri) = Raise e))
    /\ ((forall e, ~ stage_raises w d s e) ->
        exists pre anns j,
          evs = pre ++ [success anns j]
          /\ published pre = 0%nat /\ failed pre = 0%nat).
Proof.
  destruct (process_annotation_job_run w d s) as [t Ht].
  exists t, (job_events w d s). split; [exact Ht |].
  unfold job_events, failure.
  set (started := [Processing (JDict d); MarkedRunning _]).
  destruct (py_getitem (JDict d) "object") as [o | e0] eqn:Ho.
  2:{ split.
      - intros e He. exists started.
        assert (e = e0) as ->.
        { destruct He as [H | ? ? H | ? ? ? ? ? ? H | ? ? ? ? ? ? ? ? H];
            rewrite Ho in H; cbn [rbind] in H; congruence. }
        repeat split. intros Hempty. exfalso.
        apply (py_getitem_said _ _ _ Ho). exact Hempty.
      - intros Hnone. destruct (Hnone e0). apply raises_in_extraction.
        rewrite Ho. reflexivity. }
  destruct (py_get o "ac:accessURI" JNull) as [uri | e0] eqn:Huri.
  2:{ split.
      - intros e He. exists started.
        assert (e = e0) as ->.
        { destruct He as [H | o' ? H H' | o' ? ? ? ? ? H H'
                          | o' ? ? ? ? ? ? ? H H'];
            rewrite Ho in H; cbn [rbind] in H; try congruence;
            injection H as <-; congruence. }
        repeat split. intros Hempty. exfalso.
        apply (py_get_said _ _ _ _ Huri). exact Hempty.
      - intros Hnone. destruct (Hnone e0). apply raises_in_extraction.
        rewrite Ho. cbn [rbind]. exact Huri. }
  pose proof (run_wildlive_detection_running w d s uri) as Hdet.
  destruct (r <- service w (posts (log s)) (payload_of uri) ;; read_response r)%result
    as [[[dets h] wd] | e0] eqn:Hcall.
  2:{ split.
      - intros e He.
        exists (started ++ [HttpPost (payload_of uri); DetectionFailed e0]).
        assert (e = e0) as ->.
        { destruct He as [H | o' uri' H H' H'' | o' uri' ? ? ? ? H H' H''
                          | o' uri' ? ? ? ? ? ? H H' H''];
            rewrite Ho in H; cbn [rbind] in H; try congruence;
            injection H as <-; rewrite Huri in H'; injection H' as <-;
            rewrite Hdet in H''; cbn [fst] in H''; congruence. }
        repeat split. intros Hempty.
        destruct (service w (posts (log s)) (payload_of uri)) as [r | e'] eqn:Hs;
          cbn [rbind] in Hcall.
        + exfalso. apply (read_response_said _ _ Hcall). exact Hempty.
        + injection Hcall as ->. exists uri. exact Hs.
      - intros Hnone. destruct (Hnone e0).
        apply (raises_in_detection w d s e0 o uri Ho Huri).
        rewrite Hdet. reflexivity. }
  set (s2 := {| ticks := ticks s;
                log := log (running d s) ++ [HttpPost (payload_of uri)] |}) in Hdet.
  pose proof (map_result_run w o dets h wd s2) as Hmap.
  cbn [ticks s2] in Hmap.
  destruct (l <- py_iter dets ;; for_detections o _ get_agent l [])%result
    as [anns | e0] eqn:Hloop.
  2:{ split.
      - intros e He. exists (started ++ [HttpPost (payload_of uri)]).
        assert (e = e0) as ->.
        { destruct He as [H | o' uri' H H' H'' | o' uri' ? ? ? s2' H H' H'' H3
                          | o' uri' ? ? ? s2' ? ? H H' H'' H3];
            rewrite Ho in H; cbn [rbind] in H; try congruence;
            injection H as <-; rewrite Huri in H'; injection H' as <-;
            rewrite Hdet in H''; cbn [fst] in H''; try congruence;
            injection H'' as <- <- <- <-; rewrite Hmap in H3; cbn [fst] in H3;
            congruence. }
        repeat split. intros Hempty. exfalso.
        assert (Hsaid : said e0) by (raised Hloop; eauto with said).
        apply Hsaid. exact Hempty.
      - intros Hnone. destruct (Hnone e0).
        apply (raises_in_mapping w d s e0 o uri dets h wd s2 Ho Huri Hdet).
        rewrite Hmap. reflexivity. }
  destruct (py_getitem (JDict d) "jobId") as [j | e0] eqn:Hj.
  - split.
    + intros e He. exfalso.
      destruct He as [H | o' uri' H H' H'' | o' uri' ? ? ? s2' H H' H'' H3
                      | o' uri' ? ? ? s2' ? ? H H' H'' H3 H4];
        rewrite Ho in H; cbn [rbind] in H; try congruence;
        injection H as <-; rewrite Huri in H'; injection H' as <-;
        rewrite Hdet in H''; cbn [fst] in H''; try congruence;
        injection H'' as <- <- <- <-; rewrite Hmap in H3; cbn [fst] in H3;
        congruence.
    + intros _. exists (started ++ [HttpPost (payload_of uri)]), (JList anns), j.
      repeat split.
  - split.
    + intros e He. exists (started ++ [HttpPost (payload_of uri)]).
      assert (e = e0) as ->.
      { destruct He as [H | o' uri' H H' H'' | o' uri' ? ? ? s2' H H' H'' H3
                        | o' uri' ? ? ? s2' ? ? H H' H'' H3 H4];
          rewrite Ho in H; cbn [rbind] in H; try congruence;
          injection H as <-; rewrite Huri in H'; injection H' as <-;
          rewrite Hdet in H''; cbn [fst] in H''; try congruence;
          injection H'' as <- <- <- <-; rewrite Hmap in H3; cbn [fst] in H3;
          congruence. }
      repeat split. intros Hempty. exfalso.
      apply (py_getitem_said _ _ _ Hj). exact Hempty.
    + intros Hnone. destruct (Hnone e0).
      exact (raises_in_event_construction w d s e0 o uri dets h wd s2 _ anns
               Ho Huri Hdet Hmap Hj).
Qed.

Lemma failures_become_notices_witness :
  exists t evs pre,
    process_annotation_job strict_service job_without_locator init
    = (Ok tt, {| ticks := t; log := log init ++ evs |})
    /\ evs = pre ++ [ ErrorLogged (RequestError "422 Client Error: Unprocessable Entity for url: https://wildlive.senckenberg.de/run_jaquar_detection");
                      FailedMessage (JStr "J1") "422 Client Error: Unprocessable Entity for url: https://wildlive.senckenberg.de/run_jaquar_detection" ]
    /\ published pre = 0%nat.
Proof.
  destruct (failures_become_notices strict_service
              [ ("jobId", JStr "J1");
                ("object", JDict [ ("id", JStr "urn:example:1234");
                                   ("type", JStr "DigitalMediaObject") ]) ]
              init)
    as [t [evs [Hrun [Hfail _]]]].
  destruct (Hfail (RequestError "422 Client Error: Unprocessable Entity for url: https://wildlive.senckenberg.de/run_jaquar_detection"))
    as [pre [Hevs [Hpub _]]].
  - apply (raises_in_detection strict_service _ init _
             (JDict [ ("id", JStr "urn:example:1234");
                      ("type", JStr "DigitalMediaObject") ]) JNull);
      reflexivity.
  - exists t, evs, pre. split; [exact Hrun |]. split; [exact Hevs | exact Hpub].
Defined.

(** ** Orchestrator: the image locator *)

(** C2, as stated, fails: the job without an image locator does reach
    the detection service, with a null locator, whether the service
    then refuses the request or answers it; when it answers, the job
    even ends in a published event. *)
Lemma missing_locator_still_calls_service :
  log (snd (process_annotation_job strict_service job_without_locator init))
  = [ Processing job_without_locator; MarkedRunning (JStr "J1");
      HttpPost (JDict [("image_url", JNull)]);
      DetectionFailed (RequestError "422 Client Error: Unprocessable Entity for url: https://wildlive.senckenberg.de/run_jaquar_detection");
      ErrorLogged (RequestError "422 Client Error: Unprocessable Entity for url: https://wildlive.senckenberg.de/run_jaquar_detection");
      FailedMessage (JStr "J1") "422 Client Error: Unprocessable Entity for url: https://wildlive.senckenberg.de/run_jaquar_detection" ]
  /\ posts (log (snd (process_annotation_job strict_service
                        job_without_locator init))) = 1%nat
  /\ log (snd (process_annotation_job lenient_service job_without_locator init))
     = [ Processing job_without_locator; MarkedRunning (JStr "J1");
         HttpPost (JDict [("image_url", JNull)]);
         success (JList []) (JStr "J1") ].
Proof.
  repeat split.
Qed.

(** C2, amended. A payload without an ["object"], or whose ["object"]
    is not a [dict], fails before any request is sent.  A payload whose
    object is a [dict] without ["ac:accessURI"] is not stopped: exactly
    one request is sent, with a null image locator, and the job ends
    as that call and the later stages decide. *)
Theorem missing_locator_sends_null (w : World) (d : dict) (s : State) :
  ((forall o, lookup "object" d <> Some (JDict o)) ->
   exists t e,
     process_annotation_job w (JDict d) s
     = (Ok tt, {| ticks := t;
                  log := log s ++
                    [ Processing (JDict d);
                      MarkedRunning (match lookup "jobId" d with
                                     | Some j => j
                                     | None => JNull
                                     end) ] ++ failure d e |}))
  /\ (forall o,
        lookup "object" d = Some (JDict o) ->
        lookup "ac:accessURI" o = None ->
        exists t rest,
          process_annotation_job w (JDict d) s
          = (Ok tt, {| ticks := t;
                       log := log s ++
                         [ Processing (JDict d);
                           MarkedRunning (match lookup "jobId" d with
                                          | Some j => j
                                          | None => JNull
                                          end);
                           HttpPost (JDict [("image_url", JNull)]) ] ++ rest |})
          /\ posts rest = 0%nat).
Proof.
  destruct (process_annotation_job_run w d s) as [t Ht]. split.
  - intros Hno. unfold job_events in Ht. cbn [py_getitem] in Ht.
    destruct (lookup "object" d) as [o |] eqn:Ho.
    + destruct (py_get o "ac:accessURI" JNull) as [uri | e] eqn:Huri.
      * destruct o; try discriminate Huri. now destruct (Hno d0).
      * exists t, e. exact Ht.
    + exists t, (KeyError "object"). exact Ht.
  - intros o Ho Hnone. unfold job_events in Ht. cbn [py_getitem] in Ht.
    rewrite Ho, py_get_dict, Hnone in Ht. rewrite Ht. exists t.
    eexists. split; [reflexivity |].
    destruct (r <- service w (posts (log s)) (payload_of JNull) ;; read_response r)%result
      as [[[dets h] wd] | e]; [| reflexivity].
    destruct (l <- py_iter dets ;; for_detections (JDict o) _ get_agent l [])%result
      as [anns | e]; [| reflexivity].
    destruct (lookup "jobId" d); reflexivity.
Qed.

Lemma missing_locator_sends_null_witness :
  (exists t e,
     process_annotation_job strict_service (JDict [("jobId", JStr "J1")]) init
     = (Ok tt, {| ticks := t;
                  log := [ Processing (JDict [("jobId", JStr "J1")]);
                           MarkedRunning (JStr "J1");
                           ErrorLogged e;
                           FailedMessage (JStr "J1") (str_exn e) ] |}))
  /\ (exists t rest,
        process_annotation_job strict_service job_without_locator init
        = (Ok tt, {| ticks := t;
                     log := [ Processing job_without_locator;
                              MarkedRunning (JStr "J1");
                              HttpPost (JDict [("image_url", JNull)]) ] ++ rest |})
        /\ posts rest = 0%nat).
Proof.
  split.
  - apply (proj1 (missing_locator_sends_null strict_service
                    [("jobId", JStr "J1")] init)).
    intros o. discriminate.
  - apply (proj2 (missing_locator_sends_null strict_service
                    [ ("jobId", JStr "J1");
                      ("object", JDict [ ("id", JStr "urn:example:1234");
                                         ("type", JStr "DigitalMediaObject") ]) ]
                    init)
                 [ ("id", JStr "urn:example:1234");
                   ("type", JStr "DigitalMediaObject") ]);
      reflexivity.
Defined.

(** ** Detection client: partial responses *)

(** C4. When the parsed body of the response is a [dict], the client
    returns what the body holds and does not raise: the empty list for
    a missing ["output"], [-1] for a missing ["image_height"] or
    ["image_width"].  A job with an identifier and an object whose
    response has no ["output"] publishes an event with no annotation. *)
Theorem partial_response_is_lenient
        (w : World) (uri : json) (resp : dict) (s : State) :
  service w (posts (log s)) (payload_of uri) = Ok (JDict resp) ->
  exists output height width,
    run_wildlive_detection w uri s
    = (Ok (output, height, width),
       {| ticks := ticks s; log := log s ++ [HttpPost (payload_of uri)] |})
    /\ output = match lookup "output" resp with
                | Some v => v
                | None => JList []
                end
    /\ height = match lookup "image_height" resp with
                | Some v => v
                | None => JInt (-1)
                end
    /\ width = match lookup "image_width" resp with
               | Some v => v
               | None => JInt (-1)
               end
    /\ (forall d o j,
          lookup "object" d = Some (JDict o) ->
          lookup "jobId" d = Some j ->
          py_get (JDict o) "ac:accessURI" JNull = Ok uri ->
          lookup "output" resp = None ->
          exists t,
            process_annotation_job w (JDict d) s
            = (Ok tt, {| ticks := t;
                         log := log s ++ [ Processing (JDict d); MarkedRunning j;
                                           HttpPost (payload_of uri);
                                           success (JList []) j ] |})).
Proof.
  intros Hresp. rewrite run_wildlive_detection_run, Hresp. cbn [rbind].
  unfold read_response. rewrite !py_get_dict. cbn [rbind].
  do 3 eexists. split; [reflexivity |].
  do 3 (split; [reflexivity |]).
  intros d o j Ho Hj Huri Hnone.
  destruct (process_annotation_job_run w d s) as [t Ht]. exists t.
  rewrite Ht.
  rewrite (job_events_success w d o resp s j uri [] []); try assumption;
    try reflexivity.
  now rewrite py_get_dict, Hnone.
Qed.

Lemma partial_response_is_lenient_witness :
  run_wildlive_detection lenient_service
    (JStr "https://example.org/test-image.jpg") init
  = (Ok (JList [], JInt 1024, JInt (-1)),
     {| ticks := 0;
        log := [HttpPost (payload_of (JStr "https://example.org/test-image.jpg"))] |})
  /\ exists t,
       process_annotation_job lenient_service job_J1 init
       = (Ok tt, {| ticks := t;
                    log := [ Processing job_J1; MarkedRunning (JStr "J1");
                             HttpPost (payload_of (JStr "https://example.org/test-image.jpg"));
                             success (JList []) (JStr "J1") ] |}).
Proof.
  destruct (partial_response_is_lenient lenient_service
              (JStr "https://example.org/test-image.jpg")
              [("image_height", JInt 1024)] init eq_refl)
    as [output [height [width [Hrun [Hout [Hh [Hw Hjob]]]]]]].
  split.
  - rewrite Hrun, Hout, Hh, Hw. reflexivity.
  - apply (Hjob [ ("jobId", JStr "J1");
                  ("object", JDict [ ("id", JStr "urn:example:1234");
                                     ("type", JStr "DigitalMediaObject");
                                     ("ac:accessURI", JStr "https://example.org/test-image.jpg") ]) ]
                [ ("id", JStr "urn:example:1234");
                  ("type", JStr "DigitalMediaObject");
                  ("ac:accessURI", JStr "https://example.org/test-image.jpg") ]
                (JStr "J1")); reflexivity.
Defined.

(** ** Redelivery *)

(** Only the timestamp of an annotation depends on the clock. *)
Lemma annotation_of_content (o : json) (ts1 ts2 : string) (agent det : json) :
  rmap without_created (annotation_of o ts1 agent det)
  = rmap without_created (annotation_of o ts2 agent det).
Proof.
  unfold annotation_of.
  destruct (build_wlmo_fragment_selector det); [| reflexivity]. cbn [rbind].
  destruct (py_get det "class" JNull); [| reflexivity].
  destruct (py_get det "score" JNull); [| reflexivity]. cbn [rbind].
  destruct (py_get o "id" JNull); reflexivity.
Qed.

Lemma for_detections_content (o : json) (ts1 ts2 : string) (agent : json)
      (dets acc1 acc2 : list json) :
  map without_created acc1 = map without_created acc2 ->
  rmap (map without_created) (for_detections o ts1 agent dets acc1)
  = rmap (map without_created) (for_detections o ts2 agent dets acc2).
Proof.
  revert acc1 acc2. induction dets as [| det rest IH]; intros acc1 acc2 Hacc.
  - cbn. now rewrite Hacc.
  - cbn [for_detections].
    pose proof (annotation_of_content o ts1 ts2 agent det) as Hdet.
    destruct (annotation_of o ts1 agent det) as [a1 | e1],
             (annotation_of o ts2 agent det) as [a2 | e2];
      cbn in Hdet; try discriminate Hdet; cbn [rbind].
    + apply IH. rewrite !map_app, Hacc. cbn [map]. now injection Hdet as ->.
    + now injection Hdet as ->.
Qed.

(** C8. Two runs of the same payload that get the same answer from the
    detection service, whatever the clock shows in each, add the same
    records to the log up to the creation timestamps: the same failure
    notice, or published events whose annotations agree on every field
    but ["wlmo:created"]. *)
Theorem redelivery_same_content
        (w1 w2 : World) (d : dict) (s1 s2 : State) :
  (forall p, service w1 (posts (log s1)) p = service w2 (posts (log s2)) p) ->
  exists t1 t2 evs1 evs2,
    process_annotation_job w1 (JDict d) s1
    = (Ok tt, {| ticks := t1; log := log s1 ++ evs1 |})
    /\ process_annotation_job w2 (JDict d) s2
       = (Ok tt, {| ticks := t2; log := log s2 ++ evs2 |})
    /\ map content evs1 = map content evs2.
Proof.
  intros Hsame.
  destruct (process_annotation_job_run w1 d s1) as [t1 H1].
  destruct (process_annotation_job_run w2 d s2) as [t2 H2].
  exists t1, t2, (job_events w1 d s1), (job_events w2 d s2).
  split; [exact H1 |]. split; [exact H2 |].
  unfold job_events. rewrite !map_app. f_equal.
  destruct (py_getitem (JDict d) "object") as [o | e]; [| reflexivity].
  destruct (py_get o "ac:accessURI" JNull) as [uri | e]; [| reflexivity].
  rewrite Hsame. cbn [map content]. f_equal.
  destruct (r <- service w2 (posts (log s2)) (payload_of uri) ;; read_response r)%result
    as [[[dets h] wd] | e]; [| reflexivity].
  destruct (py_iter dets) as [l | e]; [| reflexivity]. cbn [rbind].
  pose proof (for_detections_content o (clock w1 (ticks s1) ++ "Z")%string
                (clock w2 (ticks s2) ++ "Z")%string get_agent l [] [] eq_refl)
    as Hmap.
  destruct (for_detections o (clock w1 (ticks s1) ++ "Z")%string get_agent l [])
    as [a1 | e1],
    (for_detections o (clock w2 (ticks s2) ++ "Z")%string get_agent l [])
    as [a2 | e2]; cbn in Hmap; try discriminate Hmap.
  - injection Hmap as Hmap.
    destruct (py_getitem (JDict d) "jobId"); [| reflexivity].
    cbn. now rewrite Hmap.
  - now injection Hmap as ->.
Qed.

(** The timestamp is the only binding [without_created] drops. *)
Fact lookup_remove_key (k k' : string) (d : dict) :
  k <> k' -> lookup k (remove_key k' d) = lookup k d.
Proof.
  intros Hk. unfold remove_key.
  induction d as [| [k0 v] d IH]; [reflexivity |].
  cbn. destruct (String.eqb_spec k' k0) as [-> | Hk0]; cbn.
  - destruct (String.eqb_spec k k0); [contradiction | exact IH].
  - now rewrite IH.
Qed.

Lemma redelivery_same_content_witness :
  exists t1 t2 evs1 evs2,
    process_annotation_job demo_service job_J1 init
    = (Ok tt, {| ticks := t1; log := evs1 |})
    /\ process_annotation_job demo_service job_J1
         (snd (process_annotation_job demo_service job_J1 init))
       = (Ok tt, {| ticks := t2;
                    log := log (snd (process_annotation_job demo_service
                                       job_J1 init)) ++ evs2 |})
    /\ map content evs1 = map content evs2.
Proof.
  apply (redelivery_same_content demo_service demo_service
           [ ("jobId", JStr "J1");
             ("object", JDict [ ("id", JStr "urn:example:1234");
                                ("type", JStr "DigitalMediaObject");
                                ("ac:accessURI", JStr "https://example.org/test-image.jpg") ]) ]
           init (snd (process_annotation_job demo_service job_J1 init))).
  intros p. reflexivity.
Defined.

(** The two runs of the witness do differ in their timestamps. *)
Remark redelivery_timestamps_differ :
  log (snd (process_annotation_job demo_service job_J1
              (snd (process_annotation_job demo_service job_J1 init))))
  <> log (snd (process_annotation_job demo_service job_J1 init))
       ++ log (snd (process_annotation_job demo_service job_J1 init)).
Proof. vm_compute. intros H. discriminate H. Qed.

(** ** A bounding box [int] refuses *)

(** C10. The selector builder returns exactly on well-formed
    detections.  A bounding-box field that is present and that [int]
    refuses, such as [null] or a text that is not a number, is not
    replaced by 0: the builder raises, and a job whose detections hold
    such a box ends in a failure notice. *)
Theorem bad_box_field_fails_job (det : json) :
  ((exists sel, build_wlmo_fragment_selector det = Ok sel)
   <-> well_formed_detection det = true)
  /\ (forall d box k v e,
        det = JDict d ->
        lookup "boundingBox" d = Some (JDict box) ->
        In k ["x"; "y"; "width"; "height"]%string ->
        lookup k box = Some v ->
        py_int v = Raise e ->
        exists e', build_wlmo_fragment_selector det = Raise e')
  /\ py_int JNull
     = Raise (TypeError "int() argument must be a string, a bytes-like object or a real number, not 'NoneType'")
  /\ (forall s, int_of_string s = None -> exists e, py_int (JStr s) = Raise e)
  /\ (forall w d s o uri resp dets,
        well_formed_detection det = false ->
        lookup "object" d = Some o ->
        py_get o "ac:accessURI" JNull = Ok uri ->
        service w (posts (log s)) (payload_of uri) = Ok (JDict resp) ->
        lookup "output" resp = Some (JList dets) ->
        In det dets ->
        exists t e,
          process_annotation_job w (JDict d) s
          = (Ok tt, {| ticks := t;
                       log := log s ++
                         [ Processing (JDict d);
                           MarkedRunning (match lookup "jobId" d with
                                          | Some j => j
                                          | None => JNull
                                          end);
                           HttpPost (payload_of uri) ] ++ failure d e |})).
Proof.
  pose proof (build_selector_total_iff det) as Hiff.
  split; [exact Hiff |]. split; [| split; [reflexivity | split]].
  - intros d box k v e -> Hbox Hk Hv Hint.
    destruct (build_wlmo_fragment_selector (JDict d)) as [sel | e'] eqn:Hb;
      [| eauto].
    exfalso. assert (Hwf : well_formed_detection (JDict d) = true)
      by (apply Hiff; eauto).
    cbn in Hwf. rewrite Hbox in Hwf.
    assert (Hbad : field_ok box k = false)
      by (unfold field_ok, coercible; now rewrite Hv, Hint).
    cbn in Hk.
    destruct Hk as [<- | [<- | [<- | [<- | []]]]]; rewrite Hbad in Hwf;
      rewrite ?andb_false_r in Hwf; discriminate Hwf.
  - intros s Hs. cbn. rewrite Hs. eauto.
  - intros w d s o uri resp dets Hwf Ho Huri Hresp Hout Hin.
    destruct (process_annotation_job_run w d s) as [t Ht]. exists t.
    destruct (for_detections_raises o (clock w (ticks s) ++ "Z")%string
                get_agent dets det Hin) as [e He].
    { intros a Ha.
      destruct (proj1 (annotation_of_ok_iff o
                         (clock w (ticks s) ++ "Z")%string get_agent det))
        as [Hgood _]; [eauto |].
      rewrite Hgood in Hwf. discriminate Hwf. }
    exists e. rewrite Ht.
    rewrite (job_events_mapping_raises w d s o uri (JDict resp) (JList dets)
               (match lookup "image_height" resp with
                | Some v => v | None => JInt (-1) end)
               (match lookup "image_width" resp with
                | Some v => v | None => JInt (-1) end) e);
      try assumption; try reflexivity.
    unfold read_response. rewrite !py_get_dict, Hout. reflexivity.
Qed.

Lemma bad_box_field_fails_job_witness :
  (exists e, build_wlmo_fragment_selector detection_with_null_x = Raise e)
  /\ (exists t e,
        process_annotation_job null_x_service job_J1 init
        = (Ok tt, {| ticks := t;
                     log := [ Processing job_J1; MarkedRunning (JStr "J1");
                              HttpPost (payload_of (JStr "https://example.org/test-image.jpg")) ]
                            ++ failure [ ("jobId", JStr "J1") ] e |})).
Proof.
  destruct (bad_box_field_fails_job detection_with_null_x)
    as [_ [Hbuild [_ [_ Hjob]]]].
  split.
  - apply (Hbuild [ ("class", JStr "Jaquar");
                    ("boundingBox", JDict [("x", JNull); ("y", JInt 50)]) ]
                  [("x", JNull); ("y", JInt 50)] "x"%string JNull
                  (int_type_error JNull));
      try reflexivity.
    left. reflexivity.
  - apply (Hjob null_x_service
                [ ("jobId", JStr "J1");
                  ("object", JDict [ ("id", JStr "urn:example:1234");
                                     ("type", JStr "DigitalMediaObject");
                                     ("ac:accessURI", JStr "https://example.org/test-image.jpg") ]) ]
                init
                (JDict [ ("id", JStr "urn:example:1234");
                         ("type", JStr "DigitalMediaObject");
                         ("ac:accessURI", JStr "https://example.org/test-image.jpg") ])
                (JStr "https://example.org/test-image.jpg")
                [ ("output", JList [ JDict [("class", JStr "Ocelot")];
                                     detection_with_null_x ]) ]
                [ JDict [("class", JStr "Ocelot")]; detection_with_null_x ]);
      try reflexivity.
    right. left. reflexivity.
Defined.

(** What the log of that job says. *)
Example null_x_job_log :
  log (snd (process_annotation_job null_x_service job_J1 init))
  = [ Processing job_J1; MarkedRunning (JStr "J1");
      HttpPost (payload_of (JStr "https://example.org/test-image.jpg"));
      ErrorLogged (int_type_error JNull);
      FailedMessage (JStr "J1")
        "int() argument must be a string, a bytes-like object or a real number, not 'NoneType'" ].
Proof. reflexivity. Qed.

(** * Further properties of the worker *)

(** ** Payloads outside the declared type *)

(** X1. A payload that is not a [dict] makes the task raise to its
    caller: the first [.get] raises [AttributeError], the handler logs
    it and raises the same error on its own [.get]; the job is never
    marked as running and no outcome, published or failed, is left. *)
Theorem non_dict_payload_escapes (w : World) (job_data : json) (s : State) :
  (forall d, job_data <> JDict d) ->
  process_annotation_job w job_data s
  = (Raise (AttributeError ("'" ++ type_name job_data
                             ++ "' object has no attribute 'get'")%string),
     {| ticks := ticks s;
        log := log s ++
          [ Processing job_data;
            ErrorLogged (AttributeError ("'" ++ type_name job_data
                          ++ "' object has no attribute 'get'")%string) ] |}).
Proof.
  intros Hnot.
  destruct job_data; try (now destruct (Hnot d));
    unfold process_annotation_job, try_except, bind, lift, emit;
    cbn; rewrite <- app_assoc; reflexivity.
Qed.

Lemma non_dict_payload_escapes_witness :
  process_annotation_job strict_service (JList [job_J1]) init
  = (Raise (AttributeError "'list' object has no attribute 'get'"),
     {| ticks := 0;
        log := [ Processing (JList [job_J1]);
                 ErrorLogged (AttributeError "'list' object has no attribute 'get'") ] |}).
Proof.
  apply (non_dict_payload_escapes strict_service (JList [job_J1]) init).
  intros d. discriminate.
Defined.

(** ** The stages of a job *)

Lemma for_detections_well_formed (o : json) (ts : string) (agent : json)
      (l anns : list json) :
  for_detections o ts agent l [] = Ok anns ->
  forallb well_formed_detection l = true.
Proof.
  intros H. apply for_detections_Forall2 in H.
  induction H as [| det a dets anns Ha _ IH]; [reflexivity |].
  cbn. rewrite IH, andb_true_r.
  apply (annotation_of_ok_iff o ts agent det). eauto.
Qed.

Lemma for_detections_total (o : dict) (ts : string) (agent : json)
      (l : list json) :
  forallb well_formed_detection l = true ->
  exists anns, for_detections (JDict o) ts agent l [] = Ok anns.
Proof.
  induction l as [| det rest IH]; intros Hwf; [exists []; reflexivity |].
  cbn in Hwf. apply andb_true_iff in Hwf as [Hdet Hrest].
  destruct (IH Hrest) as [anns Hanns].
  destruct (proj2 (annotation_of_ok_iff (JDict o) ts agent det)) as [a Ha];
    [split; eauto |].
  exists (a :: anns). rewrite for_detections_cons, Ha, Hanns. reflexivity.
Qed.

Lemma py_get_ok_dict (v : json) (k : string) (default x : json) :
  py_get v k default = Ok x -> exists d, v = JDict d.
Proof. destruct v; try discriminate. eauto. Qed.

(** X3. A job publishes exactly when its payload has a ["jobId"] and
    an ["object"] that is a [dict], the detection service answers with
    a body that is a [dict], and what that body holds under ["output"]
    (the empty list when missing) can be iterated and holds only
    well-formed detections.  In every other case the job fails. *)
Theorem job_publishes_iff (w : World) (d : dict) (s : State) :
  (exists t evs,
      process_annotation_job w (JDict d) s
      = (Ok tt, {| ticks := t; log := log s ++ evs |})
      /\ published evs = 1%nat)
  <-> (exists j o resp l,
          lookup "jobId" d = Some j
          /\ lookup "object" d = Some (JDict o)
          /\ service w (posts (log s))
               (payload_of (match lookup "ac:accessURI" o with
                            | Some u => u
                            | None => JNull
                            end)) = Ok (JDict resp)
          /\ py_iter (match lookup "output" resp with
                      | Some v => v
                      | None => JList []
                      end) = Ok l
          /\ forallb well_formed_detection l = true).
Proof.
  destruct (process_annotation_job_run w d s) as [t0 Hrun]. split.
  - intros [t [evs [H Hpub]]]. rewrite Hrun in H.
    injection H as _ Hlog. apply app_inv_head in Hlog. subst evs.
    unfold job_events, failure, success in Hpub. cbn [py_getitem] in Hpub.
    destruct (lookup "object" d) as [o |] eqn:Ho; [| discriminate Hpub].
    destruct (py_get o "ac:accessURI" JNull) as [uri | e] eqn:Huri;
      [| discriminate Hpub].
    destruct (py_get_ok_dict _ _ _ _ Huri) as [od ->].
    rewrite py_get_dict in Huri. injection Huri as <-.
    destruct (service w (posts (log s)) _) as [body | e] eqn:Hs;
      [| discriminate Hpub].
    cbn [rbind] in Hpub.
    destruct (read_response body) as [[[dets h] wd] | e] eqn:Hread;
      [| discriminate Hpub].
    unfold read_response in Hread.
    destruct (py_get body "output" (JList [])) as [out |] eqn:Hout;
      [| discriminate Hread].
    destruct (py_get_ok_dict _ _ _ _ Hout) as [resp ->].
    rewrite !py_get_dict in *. cbn [rbind] in Hread.
    injection Hout as <-. injection Hread as <- _ _.
    destruct (py_iter _) as [l | e] eqn:Hiter; [| discriminate Hpub].
    cbn [rbind] in Hpub.
    destruct (for_detections (JDict od) _ get_agent l []) as [anns | e] eqn:Hfor;
      [| discriminate Hpub].
    destruct (lookup "jobId" d) as [j |] eqn:Hj; [| discriminate Hpub].
    exists j, od, resp, l. repeat split; try assumption.
    exact (for_detections_well_formed _ _ _ _ _ Hfor).
  - intros [j [o [resp [l [Hj [Ho [Hs [Hiter Hwf]]]]]]]].
    exists t0, (job_events w d s). split; [exact Hrun |].
    destruct (for_detections_total o (clock w (ticks s) ++ "Z")%string
                get_agent l Hwf) as [anns Hanns].
    unfold job_events. cbn [py_getitem]. rewrite Ho, Hj, py_get_dict, Hs.
    cbn [rbind]. unfold read_response. rewrite !py_get_dict. cbn [rbind].
    rewrite Hiter. cbn [rbind]. rewrite Hanns. reflexivity.
Qed.

(** X2. A payload without a ["jobId"] is marked as running under
    [None] and can only fail, with a notice for ["unknown"].  The
    missing key is met last, when the event is put together: with an
    ["object"] that is a [dict] the request is sent all the same, and
    when detection and mapping succeed the clock has been read and the
    error is [KeyError('jobId')]. *)
Theorem missing_job_id_fails_late (w : World) (d : dict) (s : State) :
  lookup "jobId" d = None ->
  exists t pre e,
    process_annotation_job w (JDict d) s
    = (Ok tt, {| ticks := t;
                 log := log s ++
                   [ Processing (JDict d); MarkedRunning JNull ] ++ pre ++
                   [ ErrorLogged e;
                     FailedMessage (JStr "unknown") (str_exn e) ] |})
    /\ published pre = 0%nat /\ failed pre = 0%nat
    /\ (forall o, lookup "object" d = Some (JDict o) -> posts pre = 1%nat)
    /\ (forall o resp l,
          lookup "object" d = Some (JDict o) ->
          service w (posts (log s))
            (payload_of (match lookup "ac:accessURI" o with
                         | Some u => u
                         | None => JNull
                         end)) = Ok (JDict resp) ->
          py_iter (match lookup "output" resp with
                   | Some v => v
                   | None => JList []
                   end) = Ok l ->
          forallb well_formed_detection l = true ->
          e = KeyError "jobId").
Proof.
  intros Hj. destruct (process_annotation_job_run w d s) as [t Hrun].
  exists t. rewrite Hrun. unfold job_events, failure. cbn [py_getitem].
  rewrite Hj.
  destruct (lookup "object" d) as [o |] eqn:Ho.
  2:{ exists [], (KeyError "object"). repeat split; try discriminate. }
  destruct (py_get o "ac:accessURI" JNull) as [uri | e] eqn:Huri.
  2:{ exists [], e. repeat split; try discriminate.
      - intros o' [= ->]. now rewrite py_get_dict in Huri.
      - intros o' resp l [= ->]. now rewrite py_get_dict in Huri. }
  destruct (py_get_ok_dict _ _ _ _ Huri) as [od ->].
  rewrite py_get_dict in Huri. injection Huri as <-.
  destruct (service w (posts (log s)) _) as [body | e] eqn:Hs; cbn [rbind].
  2:{ exists [HttpPost (payload_of (match lookup "ac:accessURI" od with
                                    | Some u => u | None => JNull end));
               DetectionFailed e], e.
      repeat split. intros o resp l [= <-] H. congruence. }
  destruct (read_response body) as [[[dets h] wd] | e] eqn:Hread.
  2:{ exists [HttpPost (payload_of (match lookup "ac:accessURI" od with
                                    | Some u => u | None => JNull end));
               DetectionFailed e], e.
      repeat split. intros o resp l [= <-] H.
      rewrite Hs in H. injection H as ->.
      unfold read_response in Hread. rewrite !py_get_dict in Hread.
      discriminate Hread. }
  destruct (l <- py_iter dets ;; for_detections (JDict od) _ get_agent l [])%result
    as [anns | e] eqn:Hmap.
  - exists [HttpPost (payload_of (match lookup "ac:accessURI" od with
                                  | Some u => u | None => JNull end))],
           (KeyError "jobId").
    repeat split.
  - exists [HttpPost (payload_of (match lookup "ac:accessURI" od with
                                  | Some u => u | None => JNull end))], e.
    repeat split. intros o resp l [= <-] H Hiter Hwf. exfalso.
    rewrite Hs in H. injection H as ->.
    unfold read_response in Hread. rewrite !py_get_dict in Hread.
    cbn [rbind] in Hread. injection Hread as <- _ _.
    rewrite Hiter in Hmap. cbn [rbind] in Hmap.
    destruct (for_detections_total od (clock w (ticks s) ++ "Z")%string
                get_agent l Hwf) as [anns Hanns].
    rewrite Hanns in Hmap. discriminate Hmap.
Qed.

Lemma missing_job_id_fails_late_witness :
  exists t pre e,
    process_annotation_job demo_service
      (JDict [("object", JDict [("id", JStr "urn:example:1234")])]) init
    = (Ok tt, {| ticks := t;
                 log := [ Processing
                            (JDict [("object",
                                     JDict [("id", JStr "urn:example:1234")])]);
                          MarkedRunning JNull ] ++ pre ++
                        [ ErrorLogged e;
                          FailedMessage (JStr "unknown") (str_exn e) ] |})
    /\ posts pre = 1%nat.
Proof.
  destruct (missing_job_id_fails_late demo_service
              [("object", JDict [("id", JStr "urn:example:1234")])] init
              eq_refl)
    as [t [pre [e [Hrun [_ [_ [Hposts _]]]]]]].
  exists t, pre, e. split; [exact Hrun |].
  exact (Hposts [("id", JStr "urn:example:1234")] eq_refl).
Defined.

(** ** The detection client *)

(** X4. One call of the client sends exactly one request and never
    reads the clock.  When the request raises, the client logs the
    exception and raises that same exception, unwrapped; it does not
    send the request again. *)
Theorem client_sends_one_request (w : World) (uri : json) (s : State) :
  exists r tail,
    run_wildlive_detection w uri s
    = (r, {| ticks := ticks s;
             log := log s ++ HttpPost (payload_of uri) :: tail |})
    /\ posts (log s ++ HttpPost (payload_of uri) :: tail) = S (posts (log s))
    /\ match r with
       | Ok _ => tail = []
       | Raise e => tail = [DetectionFailed e]
       end
    /\ (forall e, service w (posts (log s)) (payload_of uri) = Raise e ->
                  r = Raise e).
Proof.
  rewrite run_wildlive_detection_run.
  destruct (service w (posts (log s)) (payload_of uri)) as [body | e];
    cbn [rbind].
  - destruct (read_response body) as [t | e].
    + exists (Ok t), []. repeat split; try discriminate.
      rewrite posts_app. cbn. lia.
    + exists (Raise e), [DetectionFailed e]. repeat split; try discriminate.
      rewrite posts_app. cbn. lia.
  - exists (Raise e), [DetectionFailed e]. repeat split.
    + rewrite posts_app. cbn. lia.
    + now intros e' [= ->].
Qed.

(** X5. A 2xx response whose JSON body is not an object (a list, a
    text, a number, [null]) makes the client raise [AttributeError]
    on its first [.get], and the job ends in a failure notice with
    that text. *)
Theorem non_object_body_raises (w : World) (uri body : json) (s : State) :
  service w (posts (log s)) (payload_of uri) = Ok body ->
  (forall resp, body <> JDict resp) ->
  fst (run_wildlive_detection w uri s)
  = Raise (AttributeError ("'" ++ type_name body
                            ++ "' object has no attribute 'get'")%string)
  /\ (forall d o,
        lookup "object" d = Some o ->
        py_get o "ac:accessURI" JNull = Ok uri ->
        exists t,
          process_annotation_job w (JDict d) s
          = (Ok tt, {| ticks := t;
                       log := log s ++
                         [ Processing (JDict d);
                           MarkedRunning (match lookup "jobId" d with
                                          | Some j => j
                                          | None => JNull
                                          end);
                           HttpPost (payload_of uri);
                           DetectionFailed
                             (AttributeError
                                ("'" ++ type_name body
                                 ++ "' object has no attribute 'get'")%string) ]
                         ++ failure d
                              (AttributeError
                                 ("'" ++ type_name body
                                  ++ "' object has no attribute 'get'")%string) |})).
Proof.
  intros Hs Hnot.
  assert (Hread : read_response body
                  = Raise (AttributeError ("'" ++ type_name body
                            ++ "' object has no attribute 'get'")%string)).
  { destruct body; try reflexivity. now destruct (Hnot d). }
  split.
  - rewrite run_wildlive_detection_run, Hs. cbn [rbind]. now rewrite Hread.
  - intros d o Ho Huri.
    destruct (process_annotation_job_run w d s) as [t Hrun]. exists t.
    rewrite Hrun. unfold job_events. cbn [py_getitem].
    rewrite Ho, Huri, Hs. cbn [rbind]. rewrite Hread. reflexivity.
Qed.

Lemma non_object_body_raises_witness :
  fst (run_wildlive_detection list_body_service (JStr "https://example.org/test-image.jpg") init)
  = Raise (AttributeError "'list' object has no attribute 'get'").
Proof.
  apply (non_object_body_raises list_body_service
           (JStr "https://example.org/test-image.jpg") (JList []) init eq_refl).
  intros resp. discriminate.
Defined.

(** ** Requests per job *)

(** X15. A job sends at most one request to the detection service,
    whatever happens afterwards: exactly one when the payload has an
    ["object"] that is a [dict], none otherwise. *)
Theorem one_request_per_job (w : World) (d : dict) (s : State) :
  exists t evs,
    process_annotation_job w (JDict d) s
    = (Ok tt, {| ticks := t; log := log s ++ evs |})
    /\ posts evs = match lookup "object" d with
                   | Some (JDict _) => 1%nat
                   | _ => 0%nat
                   end.
Proof.
  destruct (process_annotation_job_run w d s) as [t Hrun].
  exists t, (job_events w d s). split; [exact Hrun |].
  unfold job_events, failure, success. cbn [py_getitem].
  destruct (lookup "object" d) as [o |]; [| reflexivity].
  destruct o; try reflexivity. rewrite py_get_dict.
  destruct (r <- service w (posts (log s)) _ ;; read_response r)%result
    as [[[dets h] wd] | e]; [| reflexivity].
  destruct (l <- py_iter dets ;; for_detections (JDict d0) _ get_agent l [])%result
    as [anns | e]; [| reflexivity].
  destruct (lookup "jobId" d); reflexivity.
Qed.

(** ** The mapper *)

(** X6. The mapper takes whatever can be iterated.  An empty text and
    an empty [dict] count as no detection; a text or a [dict] that is
    not empty makes it raise [AttributeError] on its first character or
    key; [null], a number or a boolean makes it raise [TypeError]. *)
Theorem mapper_over_other_iterables
        (w : World) (o h wd : json) (s : State) :
  fst (map_result_to_wlmo_annotation w o (JStr "") h wd s) = Ok []
  /\ fst (map_result_to_wlmo_annotation w o (JDict []) h wd s) = Ok []
  /\ (forall c r,
        fst (map_result_to_wlmo_annotation w o (JStr (String c r)) h wd s)
        = Raise (AttributeError "'str' object has no attribute 'get'"))
  /\ (forall k v d,
        fst (map_result_to_wlmo_annotation w o (JDict ((k, v) :: d)) h wd s)
        = Raise (AttributeError "'str' object has no attribute 'get'"))
  /\ (forall v,
        (forall l, v <> JList l) -> (forall t, v <> JStr t) ->
        (forall d, v <> JDict d) ->
        fst (map_result_to_wlmo_annotation w o v h wd s)
        = Raise (TypeError ("'" ++ type_name v ++ "' object is not iterable")%string)).
Proof.
  repeat split.
  intros v Hl Ht Hd. destruct v; try reflexivity.
  - now destruct (Ht s0).
  - now destruct (Hl l).
  - now destruct (Hd d).
Qed.

Lemma mapper_over_other_iterables_witness :
  fst (map_result_to_wlmo_annotation fixed_clock job_J1 JNull
         (JInt (-1)) (JInt (-1)) init)
  = Raise (TypeError "'NoneType' object is not iterable").
Proof.
  apply (mapper_over_other_iterables fixed_clock job_J1 (JInt (-1)) (JInt (-1))
           init); intros x; discriminate.
Defined.

(** X7. The mapper is all or nothing, and the error it raises is that
    of the first detection its loop body refuses: the detections after
    it are not looked at. *)
Theorem mapper_raises_first_error
        (w : World) (o h wd : json) (s : State)
        (good : list json) (bad : json) (rest : list json) (e : exn) :
  Forall (fun det => exists a,
            annotation_of o (clock w (ticks s) ++ "Z")%string get_agent det
            = Ok a) good ->
  annotation_of o (clock w (ticks s) ++ "Z")%string get_agent bad = Raise e ->
  fst (map_result_to_wlmo_annotation w o (JList (good ++ bad :: rest)) h wd s)
  = Raise e.
Proof.
  intros Hgood Hbad. rewrite map_result_run. cbn [fst py_iter rbind].
  induction Hgood as [| det good [a Ha] _ IH].
  - cbn [app]. rewrite for_detections_cons, Hbad. reflexivity.
  - cbn [app]. rewrite for_detections_cons, Ha. cbn [rbind].
    rewrite IH. reflexivity.
Qed.

Lemma mapper_raises_first_error_witness :
  fst (map_result_to_wlmo_annotation fixed_clock
         (JDict [("id", JStr "urn:example:1234")])
         (JList [ JDict [("class", JStr "Ocelot")]; detection_with_null_x;
                  JStr "not looked at" ])
         (JInt 1024) (JInt 768) init)
  = Raise (int_type_error JNull).
Proof.
  apply (mapper_raises_first_error fixed_clock
           (JDict [("id", JStr "urn:example:1234")]) (JInt 1024) (JInt 768) init
           [JDict [("class", JStr "Ocelot")]] detection_with_null_x
           [JStr "not looked at"]).
  - constructor; [eexists; reflexivity | constructor].
  - reflexivity.
Defined.

(** X8. Mapping a list of detections in two parts, under the same
    reading of the clock, and putting the results together gives what
    mapping the whole list gives. *)
Theorem mapper_distributes_over_append
        (o : json) (ts : string) (agent : json) (l1 l2 : list json) :
  for_detections o ts agent (l1 ++ l2) []
  = (a1 <- for_detections o ts agent l1 [] ;;
     a2 <- for_detections o ts agent l2 [] ;;
     Ok (a1 ++ a2))%result.
Proof.
  induction l1 as [| det l1 IH].
  - cbn. destruct (for_detections o ts agent l2 []); reflexivity.
  - cbn [app]. rewrite !for_detections_cons.
    destruct (annotation_of o ts agent det) as [a | e]; [| reflexivity].
    cbn [rbind]. rewrite IH.
    destruct (for_detections o ts agent l1 []) as [a1 | e]; [| reflexivity].
    cbn [rbind].
    destruct (for_detections o ts agent l2 []) as [a2 | e]; reflexivity.
Qed.

(** X9. In every annotation the mapper returns, the label and the
    score are what the detection holds under ["class"] and ["score"],
    untouched and unchecked, [null] when the key is missing; the target
    is named by the ["id"] of the digital object, [null] when it has
    none; the selector is the one the builder gives for that detection;
    the motivation is ["classifying"] and the creator the fixed agent. *)
Theorem annotation_fields_pass_through
        (w : World) (o : dict) (dets : list json) (h wd : json)
        (s s' : State) (anns : list json) :
  map_result_to_wlmo_annotation w (JDict o) (JList dets) h wd s = (Ok anns, s') ->
  Forall2
    (fun det ann =>
       exists d sel,
         det = JDict d
         /\ build_wlmo_fragment_selector det = Ok sel
         /\ py_get ann "wlmo:hasBody" JNull
            = Ok (JDict [ ("@type", JStr "wlmo:TextualBody");
                          ("wlmo:vernacularName",
                           match lookup "class" d with
                           | Some v => v | None => JNull end);
                          ("wlmo:confidenceScore",
                           match lookup "score" d with
                           | Some v => v | None => JNull end) ])
         /\ py_get ann "wlmo:target" JNull
            = Ok (JDict [ ("@type", JStr "wlmo:DigitalObject");
                          ("wlmo:id",
                           match lookup "id" o with
                           | Some v => v | None => JNull end);
                          ("wlmo:hasSelector", sel) ])
         /\ py_get ann "wlmo:motivation" JNull = Ok (JStr "classifying")
         /\ py_get ann "wlmo:creator" JNull = Ok get_agent)
    dets anns.
Proof.
  rewrite map_result_run. cbn [py_iter rbind]. intros [= Hfor _].
  apply for_detections_Forall2 in Hfor.
  induction Hfor as [| det ann dets anns Hann _ IH]; constructor; [| exact IH].
  unfold annotation_of in Hann.
  destruct (build_wlmo_fragment_selector det) as [sel | e] eqn:Hsel;
    [| discriminate Hann].
  cbn [rbind] in Hann. destruct det; try discriminate Hsel.
  rewrite !py_get_dict in Hann. cbn [rbind] in Hann. injection Hann as <-.
  exists d, sel. repeat split.
Qed.

Lemma annotation_fields_pass_through_witness :
  Forall2
    (fun det ann =>
       exists d sel,
         det = JDict d
         /\ build_wlmo_fragment_selector det = Ok sel
         /\ py_get ann "wlmo:hasBody" JNull
            = Ok (JDict [ ("@type", JStr "wlmo:TextualBody");
                          ("wlmo:vernacularName",
                           match lookup "class" d with
                           | Some v => v | None => JNull end);
                          ("wlmo:confidenceScore",
                           match lookup "score" d with
                           | Some v => v | None => JNull end) ])
         /\ py_get ann "wlmo:target" JNull
            = Ok (JDict [ ("@type", JStr "wlmo:DigitalObject");
                          ("wlmo:id", JNull);
                          ("wlmo:hasSelector", sel) ])
         /\ py_get ann "wlmo:motivation" JNull = Ok (JStr "classifying")
         /\ py_get ann "wlmo:creator" JNull = Ok get_agent)
    [ JDict [("score", JStr "high")] ]
    (match fst (map_result_to_wlmo_annotation fixed_clock (JDict [])
                  (JList [ JDict [("score", JStr "high")] ])
                  (JInt 1024) (JInt 768) init) with
     | Ok anns => anns
     | Raise _ => []
     end).
Proof.
  exact (annotation_fields_pass_through fixed_clock []
           [ JDict [("score", JStr "high")] ] (JInt 1024) (JInt 768)
           init _ _ eq_refl).
Defined.

(** ** Printed integers *)

Lemma scan_digits_uint (d : Decimal.uint) (acc : Z) :
  scan_digits false acc (NilEmpty.string_of_uint d) = Some (uint_value d acc, ""%string).
Proof.
  revert acc. induction d; intros acc; cbn; try apply IHd. reflexivity.
Qed.

Lemma uint_value_pos (d : Decimal.uint) (p : positive) :
  uint_value d (Z.pos p) = Z.pos (Pos.of_uint_acc d p).
Proof.
  revert p. induction d; intros p; cbn [uint_value Pos.of_uint_acc];
    try reflexivity;
    match goal with
    | |- uint_value _ ?a = Z.pos (Pos.of_uint_acc _ ?q) =>
        replace a with (Z.pos q) by lia; apply IHd
    end.
Qed.

Lemma uint_value_zero (d : Decimal.uint) :
  uint_value d 0 = Z.of_N (Pos.of_uint d).
Proof.
  induction d; cbn [uint_value Pos.of_uint]; try reflexivity; try exact IHd;
    cbn [Z.mul Z.add Z.of_N]; apply uint_value_pos.
Qed.

Ltac eval_chars :=
  repeat match goal with
         | |- context [is_space (Ascii ?a ?b ?c ?d ?e ?f ?g ?h)] =>
             let v := eval vm_compute in (is_space (Ascii a b c d e f g h)) in
             change (is_space (Ascii a b c d e f g h)) with v
         | |- context [digit_value (Ascii ?a ?b ?c ?d ?e ?f ?g ?h)] =>
             let v := eval vm_compute in (digit_value (Ascii a b c d e f g h)) in
             change (digit_value (Ascii a b c d e f g h)) with v
         end.

Lemma int_of_string_uint (d : Decimal.uint) :
  d <> Decimal.Nil ->
  int_of_string (NilEmpty.string_of_uint d) = Some (uint_value d 0)
  /\ int_of_string (String "-" (NilEmpty.string_of_uint d))
     = Some (- uint_value d 0).
Proof.
  intros Hd. destruct d; try (now destruct Hd);
    unfold int_of_string;
    cbn [NilEmpty.string_of_uint skip_spaces scan_digits uint_value];
    eval_chars; cbn [scan_digits]; eval_chars; cbn [scan_digits];
    rewrite scan_digits_uint; cbn [skip_spaces]; split; reflexivity.
Qed.

Lemma to_uint_not_nil (p : positive) : Pos.to_uint p <> Decimal.Nil.
Proof.
  intros H. pose proof (DecimalPos.Unsigned.of_to p) as Hp.
  rewrite H in Hp. discriminate Hp.
Qed.

Lemma uint_value_to_uint (p : positive) : uint_value (Pos.to_uint p) 0 = Z.pos p.
Proof.
  rewrite uint_value_zero, DecimalPos.Unsigned.of_to. reflexivity.
Qed.

Lemma string_of_uint_not_nil (d : Decimal.uint) :
  d <> Decimal.Nil -> NilZero.string_of_uint d = NilEmpty.string_of_uint d.
Proof. destruct d; intros H; [now destruct H | reflexivity ..]. Qed.

Lemma py_int_str_of_int (z : Z) : py_int (JStr (str_of_int z)) = Ok z.
Proof.
  unfold py_int, str_of_int.
  destruct z as [| p | p]; [reflexivity | |];
    cbn [Z.to_int NilZero.string_of_int];
    rewrite string_of_uint_not_nil by apply to_uint_not_nil;
    destruct (int_of_string_uint (Pos.to_uint p) (to_uint_not_nil p))
      as [Hpos Hneg].
  - rewrite Hpos, uint_value_to_uint. reflexivity.
  - rewrite Hneg, uint_value_to_uint. reflexivity.
Qed.

(** X10. Within the interpreter's default limit of 4300 digits on the
    conversions between integers and text, what the f-string prints
    for an integer, [int] reads back as that integer: a bounding box
    whose fields are given as the decimal texts of [x], [y], [w], [h]
    gets the same selector as the box with the integers themselves. *)
Theorem printed_integer_reads_back (x y w h : Z) :
  Z.abs x < 10 ^ 4300 -> Z.abs y < 10 ^ 4300 ->
  Z.abs w < 10 ^ 4300 -> Z.abs h < 10 ^ 4300 ->
  py_int (JStr (str_of_int x)) = Ok x
  /\ build_wlmo_fragment_selector
       (JDict [("boundingBox",
                JDict [ ("x", JStr (str_of_int x)); ("y", JStr (str_of_int y));
                        ("width", JStr (str_of_int w));
                        ("height", JStr (str_of_int h)) ])])
     = build_wlmo_fragment_selector
         (JDict [("boundingBox",
                  JDict [ ("x", JInt x); ("y", JInt y);
                          ("width", JInt w); ("height", JInt h) ])]).
Proof.
  intros _ _ _ _. split; [apply py_int_str_of_int |].
  unfold build_wlmo_fragment_selector. cbn [py_get lookup String.eqb].
  cbn -[py_int str_of_int xywh]. rewrite !py_int_str_of_int. reflexivity.
Qed.

Lemma printed_integer_reads_back_witness :
  build_wlmo_fragment_selector
    (JDict [("boundingBox",
             JDict [ ("x", JStr "-30"); ("y", JStr "50");
                     ("width", JStr "100"); ("height", JStr "120") ])])
  = build_wlmo_fragment_selector
      (JDict [("boundingBox",
               JDict [ ("x", JInt (-30)); ("y", JInt 50);
                       ("width", JInt 100); ("height", JInt 120) ])]).
Proof.
  apply (printed_integer_reads_back (-30) 50 100 120);
    apply Z.ltb_lt; vm_compute; reflexivity.
Defined.

Lemma str_of_int_injective (z z' : Z) : str_of_int z = str_of_int z' -> z = z'.
Proof.
  intros H. pose proof (py_int_str_of_int z) as Hz.
  rewrite H, py_int_str_of_int in Hz. now injection Hz.
Qed.

Lemma comma_free_uint (d : Decimal.uint) :
  comma_free (NilEmpty.string_of_uint d) = true.
Proof. induction d; [reflexivity | exact IHd ..]. Qed.

Lemma comma_free_str_of_int (z : Z) : comma_free (str_of_int z) = true.
Proof.
  unfold str_of_int.
  destruct z as [| p | p]; [reflexivity | |];
    cbn [Z.to_int NilZero.string_of_int];
    rewrite string_of_uint_not_nil by apply to_uint_not_nil.
  - apply comma_free_uint.
  - exact (comma_free_uint (Pos.to_uint p)).
Qed.

(** Two texts cut at their first comma agree part by part. *)
Lemma cut_at_comma (a a' r r' : string) :
  comma_free a = true -> comma_free a' = true ->
  (a ++ String "," r)%string = (a' ++ String "," r')%string ->
  a = a' /\ r = r'.
Proof.
  revert a'. induction a as [| c a IH]; intros [| c' a'] Ha Ha' H; cbn in H.
  - now injection H.
  - injection H as <- _. unfold comma_free in Ha'. cbn [contains] in Ha'.
    rewrite Ascii.eqb_refl in Ha'. discriminate Ha'.
  - injection H as -> _. unfold comma_free in Ha. cbn [contains] in Ha.
    rewrite Ascii.eqb_refl in Ha. discriminate Ha.
  - injection H as -> H. unfold comma_free in *. cbn [contains] in Ha, Ha'.
    destruct (Ascii.eqb "," c'); [discriminate Ha |].
    destruct (IH a' Ha Ha' H) as [-> ->]. split; reflexivity.
Qed.

(** X11. The text of a selector loses nothing: two bounding boxes of
    integers that get the same selector have the same [x], [y], width
    and height. *)
Theorem selector_text_is_injective (x y w h x' y' w' h' : Z) :
  build_wlmo_fragment_selector
    (JDict [("boundingBox",
             JDict [ ("x", JInt x); ("y", JInt y);
                     ("width", JInt w); ("height", JInt h) ])])
  = build_wlmo_fragment_selector
      (JDict [("boundingBox",
               JDict [ ("x", JInt x'); ("y", JInt y');
                       ("width", JInt w'); ("height", JInt h') ])]) ->
  x = x' /\ y = y' /\ w = w' /\ h = h'.
Proof.
  intros H. cbn -[xywh] in H.
  apply (f_equal (fun r => match r with
                           | Ok (JDict (_ :: (_, JStr v) :: _)) => v
                           | _ => ""%string
                           end)) in H.
  cbn beta iota in H. unfold xywh in H. cbn [append] in H. injection H as H.
  apply cut_at_comma in H as [Hx H]; try apply comma_free_str_of_int.
  apply cut_at_comma in H as [Hy H]; try apply comma_free_str_of_int.
  apply cut_at_comma in H as [Hw Hh]; try apply comma_free_str_of_int.
  repeat split; now apply str_of_int_injective.
Qed.

Lemma selector_text_is_injective_witness :
  (30 = 10 + 20 /\ 50 = 50 /\ 100 = 10 * 10 /\ 120 = 120)%Z.
Proof.
  apply (selector_text_is_injective 30 50 100 120 (10 + 20) 50 (10 * 10) 120).
  reflexivity.
Defined.

(** X12. A bounding-box field given as a finite float is cut toward
    zero, not rounded: the integer taken is the whole part of the
    magnitude, with the sign of the float. *)
Theorem float_field_is_truncated (s : bool) (m : positive) (e : Z) :
  exists a,
    py_int (JFloat (S754_finite s m e)) = Ok (if s then - a else a)
    /\ 0 <= a
    /\ (0 <= e -> a = Z.pos m * 2 ^ e)
    /\ (e < 0 -> a * 2 ^ (- e) <= Z.pos m < (a + 1) * 2 ^ (- e)).
Proof.
  cbn [py_int]. unfold trunc_float.
  destruct (Z.leb_spec 0 e) as [He | He].
  - exists (Z.pos m * 2 ^ e).
    assert (0 <= 2 ^ e) by (apply Z.pow_nonneg; lia).
    repeat split; try lia; nia.
  - exists (Z.shiftr (Z.pos m) (- e)). rewrite Z.shiftr_div_pow2 by lia.
    assert (Hpow : 0 < 2 ^ (- e)) by (apply Z.pow_pos_nonneg; lia).
    pose proof (Z.div_mod (Z.pos m) (2 ^ (- e)) ltac:(lia)) as Hdm.
    pose proof (Z.mod_pos_bound (Z.pos m) (2 ^ (- e)) Hpow) as Hmod.
    assert (0 <= Z.pos m / 2 ^ (- e)) by (apply Z.div_pos; lia).
    repeat split; try lia; nia.
Qed.

(** * The demonstration endpoint *)

(** X13. The handler of the endpoint never answers with status 400:
    the [HTTPException(400)] it raises for an empty [image_url] is
    caught by its own [except] clause and comes out as status 500, with
    the text of the first exception in its detail.  Any other
    [image_url] gets the fixed detection, whatever the URL. *)
Theorem endpoint_never_answers_400 (u : string) :
  (forall status detail,
      fst (Service.run_detection u) = Service.HTTPException status detail ->
      status = 500 /\ u = ""%string
      /\ detail = "Error processing image: 400: No image_url provided."%string)
  /\ (forall r,
        fst (Service.run_detection u) = Service.Returned r ->
        u <> ""%string
        /\ Service.image_url r = u
        /\ Service.output r = Service.output (Service.process_jaquar_detection ""%string)
        /\ Service.image_height r = 1024 /\ Service.image_width r = 768)
  /\ (u = ""%string ->
      Service.run_detection u
      = (Service.HTTPException 500
           "Error processing image: 400: No image_url provided.",
         [ Service.Info "Processing input image: ";
           Service.Error "Error during detection: 400: No image_url provided." ])).
Proof.
  unfold Service.run_detection.
  destruct (String.eqb_spec u "") as [-> | Hu]; cbn [fst].
  - repeat split; try discriminate.
    + now injection H.
    + now injection H as _ <-.
  - repeat split; try discriminate; try (injection H as <-; reflexivity).
    + intros ->. now apply Hu.
    + contradiction.
Qed.

Lemma endpoint_never_answers_400_witness :
  Service.run_detection ""%string
  = (Service.HTTPException 500
       "Error processing image: 400: No image_url provided.",
     [ Service.Info "Processing input image: ";
       Service.Error "Error during detection: 400: No image_url provided." ]).
Proof.
  apply (proj2 (proj2 (endpoint_never_answers_400 ""%string))). reflexivity.
Defined.

(** X14. The worker against that endpoint.  A job with an identifier
    and an object whose ["ac:accessURI"] is a text that is not empty
    publishes exactly one annotation, labelled ["Jaquar"], on the
    region ["xywh=30,50,100,120"] of the object; with the empty text
    the endpoint refuses the request and the job ends in a failure
    notice after its one request. *)
Theorem worker_against_endpoint
        (w : World) (d o : dict) (j : json) (u : string) (s : State) :
  served_by_endpoint w ->
  lookup "jobId" d = Some j ->
  lookup "object" d = Some (JDict o) ->
  lookup "ac:accessURI" o = Some (JStr u) ->
  (u <> ""%string ->
   exists t ann,
     process_annotation_job w (JDict d) s
     = (Ok tt, {| ticks := t;
                  log := log s ++ [ Processing (JDict d); MarkedRunning j;
                                    HttpPost (payload_of (JStr u));
                                    success (JList [ann]) j ] |})
     /\ py_get ann "wlmo:target" JNull
        = Ok (JDict [ ("@type", JStr "wlmo:DigitalObject");
                      ("wlmo:id", match lookup "id" o with
                                  | Some v => v
                                  | None => JNull
                                  end);
                      ("wlmo:hasSelector",
                       JDict [ ("@type", JStr "wlmo:FragmentSelector");
                               ("wlmo:value", JStr "xywh=30,50,100,120");
                               ("wlmo:conformsTo",
                                JStr "http://www.w3.org/TR/media-frags/") ]) ])
     /\ py_get ann "wlmo:hasBody" JNull
        = Ok (JDict [ ("@type", JStr "wlmo:TextualBody");
                      ("wlmo:vernacularName", JStr "Jaquar");
                      ("wlmo:confidenceScore",
                       JFloat (S754_finite false 8196551321814303 (-53))) ]))
  /\ (u = ""%string ->
      exists t msg,
        process_annotation_job w (JDict d) s
        = (Ok tt, {| ticks := t;
                     log := log s ++ [ Processing (JDict d); MarkedRunning j;
                                       HttpPost (payload_of (JStr u));
                                       DetectionFailed (RequestError msg);
                                       ErrorLogged (RequestError msg);
                                       FailedMessage j msg ] |})).
Proof.
  intros Hserved Hj Ho Huri.
  destruct (process_annotation_job_run w d s) as [t Hrun].
  specialize (Hserved (posts (log s)) u). unfold Service.run_detection in Hserved.
  split; intros Hu.
  - destruct (String.eqb_spec u "") as [-> | _]; [now destruct Hu |].
    cbn [fst] in Hserved. exists t. rewrite Hrun.
    unfold job_events. cbn [py_getitem].
    rewrite Ho, Hj, py_get_dict, Huri, Hserved.
    unfold body_of, Service.process_jaquar_detection, read_response.
    cbn [Service.output Service.image_url Service.image_height
         Service.image_width rbind].
    rewrite !py_get_dict. cbn [lookup String.eqb Ascii.eqb Bool.eqb rbind py_iter].
    cbn [for_detections]. unfold annotation_of.
    rewrite (py_get_dict o "id" JNull).
    eexists. split; [reflexivity | split; reflexivity].
  - subst u. cbn [fst String.eqb] in Hserved. destruct Hserved as [msg Hmsg].
    exists t, msg. rewrite Hrun. unfold job_events, failure.
    cbn [py_getitem]. rewrite Ho, Hj, py_get_dict, Huri, Hmsg. reflexivity.
Qed.

Lemma worker_against_endpoint_witness :
  (exists t ann,
     process_annotation_job endpoint_world job_J1 init
     = (Ok tt, {| ticks := t;
                  log := [ Processing job_J1; MarkedRunning (JStr "J1");
                           HttpPost (payload_of (JStr "https://example.org/test-image.jpg"));
                           success (JList [ann]) (JStr "J1") ] |})
     /\ py_get ann "wlmo:hasBody" JNull
        = Ok (JDict [ ("@type", JStr "wlmo:TextualBody");
                      ("wlmo:vernacularName", JStr "Jaquar");
                      ("wlmo:confidenceScore",
                       JFloat (S754_finite false 8196551321814303 (-53))) ])).
Proof.
  destruct (worker_against_endpoint endpoint_world
              [ ("jobId", JStr "J1");
                ("object", JDict [ ("id", JStr "urn:example:1234");
                                   ("type", JStr "DigitalMediaObject");
                                   ("ac:accessURI", JStr "https://example.org/test-image.jpg") ]) ]
              [ ("id", JStr "urn:example:1234");
                ("type", JStr "DigitalMediaObject");
                ("ac:accessURI", JStr "https://example.org/test-image.jpg") ]
              (JStr "J1") "https://example.org/test-image.jpg"%string init)
    as [Hok _]; try reflexivity.
  - intros n u. cbn [service endpoint_world payload_of].
    destruct (fst (Service.run_detection u)); [reflexivity | eauto].
  - destruct Hok as [t [ann [Hrun [_ Hbody]]]]; [discriminate |].
    exists t, ann. split; [exact Hrun | exact Hbody].
Defined.
